(** * Virtual keyboard: key resolution, debounced typing and click typing

    A shallow embedding of the interpretation core of the four scripts
    [virtual_keyboard.py], [test_opencv.py], [enhanced_demo.py] and
    [simple_demo.py]: the grid hit test [get_key_at_position], the
    debounced [type_key] of the gesture keyboard together with the part of
    its [run] loop that feeds it, and the [mouse_callback] of the click
    demos.

    Pixel coordinates are Python [int]s and are modelled by [Z].  Clock
    readings ([time.time()]), the pinch distance and the two thresholds are
    Python [float]s; they are modelled by exact rationals [Q], so rounding
    of the floating-point subtraction is outside the model.  Text is a
    Python [str] restricted to the characters of the key labels and is
    modelled by [string].  Drawing, printing and camera access do not
    influence the typed text and are left out. *)

From Stdlib Require Import ZArith QArith List String Ascii Bool Lia Lqa.
Import ListNotations.

Local Open Scope string_scope.
Local Open Scope Z_scope.

(** ** Python values and control effects used by the scripts *)

Module Py.

(** Truth value of a [str]: only the empty string is false. *)
Definition str_truthy (s : string) : bool :=
  match s with
  | EmptyString => false
  | String _ _ => true
  end.

(** Truth value of an [Optional[str]]: [None] and [''] are false. *)
Definition truthy (o : option string) : bool :=
  match o with
  | None => false
  | Some s => str_truthy s
  end.

(** [s[:-1]]: every character but the last; [''] stays ['']. *)
Fixpoint drop_last (s : string) : string :=
  match s with
  | EmptyString => EmptyString
  | String c rest =>
      match rest with
      | EmptyString => EmptyString
      | String _ _ => String c (drop_last rest)
      end
  end.

(** [c.lower()] on one ASCII character. *)
Definition lower_ascii (c : ascii) : ascii :=
  let n := nat_of_ascii c in
  if (Nat.leb 65 n && Nat.leb n 90)%bool then ascii_of_nat (n + 32) else c.

(** [s.lower()]. *)
Fixpoint lower (s : string) : string :=
  match s with
  | EmptyString => EmptyString
  | String c rest => String (lower_ascii c) (lower rest)
  end.

(** Exceptions that occur in the scripts: [exit()] raises [SystemExit];
    a call into [pyautogui] may raise anything else, recorded by name. *)
Inductive exn : Type :=
| SystemExit
| Exception (name : string).

(** Outcome of a statement: it completes with a value or raises. *)
Inductive result (A : Type) : Type :=
| Ok (a : A)
| Raise (e : exn).
Arguments Ok {A} a.
Arguments Raise {A} e.


End Py.

(** ** The key grid

    [virtual_keyboard.py], [test_opencv.py] and [enhanced_demo.py] hold the
    same six attributes and the same [get_key_at_position]; they are
    modelled once. *)

Module Grid.

Record Layout : Type := {
  keyboard_layout : list (list string);
  key_width : Z;
  key_height : Z;
  key_margin : Z;
  keyboard_start_x : Z;
  keyboard_start_y : Z
}.

(** The values every [__init__] assigns. *)
Definition qwerty_rows : list (list string) :=
  [ ["Q"; "W"; "E"; "R"; "T"; "Y"; "U"; "I"; "O"; "P"];
    ["A"; "S"; "D"; "F"; "G"; "H"; "J"; "K"; "L"];
    ["Z"; "X"; "C"; "V"; "B"; "N"; "M"];
    ["SPACE"; "BACK"] ].

Definition default_layout : Layout :=
  {| keyboard_layout := qwerty_rows;
     key_width := 50;
     key_height := 50;
     key_margin := 20;
     keyboard_start_x := 150;
     keyboard_start_y := 450 |}.

Section Resolve.

Variable g : Layout.
Variables x y : Z.

(** [key_x] and [key_y] of the loop body. *)
Definition key_x (col_idx : nat) : Z :=
  keyboard_start_x g + Z.of_nat col_idx * (key_width g + key_margin g).

Definition key_y (row_idx : nat) : Z :=
  keyboard_start_y g + Z.of_nat row_idx * (key_height g + key_margin g).

(** The condition of the [if] in the loop body. *)
Definition hit (row_idx col_idx : nat) : bool :=
  (key_x col_idx <=? x) && (x <=? key_x col_idx + key_width g)
  && (key_y row_idx <=? y) && (y <=? key_y row_idx + key_height g).

(** The inner loop, [for col_idx, key in enumerate(row)], entered at
    column [col_idx] with the remaining keys of the row. *)
Fixpoint scan_row (row_idx col_idx : nat) (row : list string)
  : option string :=
  match row with
  | [] => None
  | key :: rest =>
      if hit row_idx col_idx then Some key
      else scan_row row_idx (S col_idx) rest
  end.

(** The outer loop, [for row_idx, row in enumerate(...)]. *)
Fixpoint scan_rows (row_idx : nat) (rows : list (list string))
  : option string :=
  match rows with
  | [] => None
  | row :: rest =>
      match scan_row row_idx 0 row with
      | Some key => Some key
      | None => scan_rows (S row_idx) rest
      end
  end.

Definition get_key_at_position : option string :=
  scan_rows 0 (keyboard_layout g).

(** *** Vocabulary of the geometry statements *)

(** The key drawn at [(row, col)], if the layout has one there. *)
Definition key_at (row col : nat) : option string :=
  match nth_error (keyboard_layout g) row with
  | Some r => nth_error r col
  | None => None
  end.

(** The closed rectangle of slot [(row, col)] contains [(x, y)]. *)
Definition contains (row col : nat) : Prop :=
  (key_x col <= x <= key_x col + key_width g)
  /\ (key_y row <= y <= key_y row + key_height g).

(** Row-major order of slots. *)
Definition before (row' col' row col : nat) : Prop :=
  (row' < row)%nat \/ (row' = row /\ (col' < col)%nat).

End Resolve.

End Grid.

(** ** Samples delivered by the hand tracker

    One detected hand of one camera frame, as the gesture loops use it:
    the pixel position of the index finger tip, the distance between thumb
    tip and index finger tip, and the value [time.time()] returns while
    this hand is processed. *)

Module Tracker.

Record Hand : Type := {
  index_pos : Z * Z;
  thumb_index_distance : Q;
  clock : Q
}.

(** A frame is [results.multi_hand_landmarks]: the hands found in it
    ([[]] stands for [None]). *)
Definition Frame : Type := list Hand.

(** Python's [a < b] and [a > b] on the modelled floats. *)
Definition ltb (a b : Q) : bool := negb (Qle_bool b a).
Definition gtb (a b : Q) : bool := negb (Qle_bool a b).

End Tracker.

(** ** [virtual_keyboard.py]: class [VirtualKeyboard] *)

Module VirtualKeyboard.
Import Py Grid Tracker.

(** The attributes of [self] that the typing logic reads or writes. *)
Record t : Type := {
  layout : Layout;
  touch_threshold : Q;
  last_key_time : Q;
  key_press_delay : Q;
  typed_text : string;
  current_key : option string
}.

(** One call of [pyautogui.press]: its argument, and the clock reading
    [current_time] of the [type_key] that made the call. *)
Record Press : Type := {
  when : Q;
  pressed_key : string
}.

(** The state a method runs in: the object and the calls made so far to
    the key-injection sink. *)
Record World : Type := {
  self : t;
  presses : list Press
}.

(** Statements: they read and write the world and complete or raise.
    What was written before a [raise] stays written. *)
Definition M (A : Type) : Type := World -> result A * World.

Definition ret {A : Type} (a : A) : M A := fun w => (Ok a, w).

Definition bind {A B : Type} (m : M A) (f : A -> M B) : M B :=
  fun w =>
    match m w with
    | (Ok a, w') => f a w'
    | (Raise e, w') => (Raise e, w')
    end.

(** [try: body except: handler] with a bare [except], which catches
    every exception. *)
Definition try_except {A : Type} (body : M A) (handler : exn -> M A) : M A :=
  fun w =>
    match body w with
    | (Ok a, w') => (Ok a, w')
    | (Raise e, w') => handler e w'
    end.

Notation "x <- m ;; k" := (bind m (fun x => k))
  (at level 61, m at next level, right associativity).
Notation "m ;; k" := (bind m (fun _ => k))
  (at level 61, right associativity).

Definition get_self : M t := fun w => (Ok (self w), w).

Definition set_typed_text (s : string) : M unit :=
  fun w =>
    (Ok tt,
     {| self := {| layout := layout (self w);
                   touch_threshold := touch_threshold (self w);
                   last_key_time := last_key_time (self w);
                   key_press_delay := key_press_delay (self w);
                   typed_text := s;
                   current_key := current_key (self w) |};
        presses := presses w |}).

Definition set_last_key_time (time : Q) : M unit :=
  fun w =>
    (Ok tt,
     {| self := {| layout := layout (self w);
                   touch_threshold := touch_threshold (self w);
                   last_key_time := time;
                   key_press_delay := key_press_delay (self w);
                   typed_text := typed_text (self w);
                   current_key := current_key (self w) |};
        presses := presses w |}).

Definition set_current_key (k : option string) : M unit :=
  fun w =>
    (Ok tt,
     {| self := {| layout := layout (self w);
                   touch_threshold := touch_threshold (self w);
                   last_key_time := last_key_time (self w);
                   key_press_delay := key_press_delay (self w);
                   typed_text := typed_text (self w);
                   current_key := k |};
        presses := presses w |}).

(** [for a in items: body(a)]. *)
Fixpoint for_each {A : Type} (items : list A) (body : A -> M unit) : M unit :=
  match items with
  | [] => ret tt
  | a :: rest => body a ;; for_each rest body
  end.

Section Sink.

(** The external key-injection call: what [pyautogui.press] does with
    an argument is not in the repository; [sink] says whether the call
    completes or what it raises. *)
Variable sink : string -> result unit.

(** [pyautogui.press(arg)] made while [current_time] is the clock
    reading of the caller: the call is made, then it completes or
    raises. *)
Definition pyautogui_press (current_time : Q) (arg : string) : M unit :=
  fun w =>
    (sink arg,
     {| self := self w;
        presses := presses w
                   ++ [ {| when := current_time; pressed_key := arg |} ] |}).

(** [type_key(self, key)], with [current_time] the value of
    [time.time()] on entry. *)
Definition type_key (current_time : Q) (key : string) : M unit :=
  s <- get_self ;;
  if gtb (current_time - last_key_time s)%Q (key_press_delay s) then
    (if (key =? "SPACE")%string then
       set_typed_text (typed_text s ++ " ")
     else if (key =? "BACK")%string then
       (if str_truthy (typed_text s) then
          set_typed_text (drop_last (typed_text s))
        else ret tt)
     else
       set_typed_text (typed_text s ++ key)) ;;
    try_except
      (if (key =? "SPACE")%string then pyautogui_press current_time "space"
       else if (key =? "BACK")%string then pyautogui_press current_time "backspace"
       else pyautogui_press current_time (lower key))
      (fun _ => ret tt) ;;
    set_last_key_time current_time
  else ret tt.

(** [is_finger_touching_thumb]: the distance is below the threshold. *)
Definition is_finger_touching_thumb (h : Hand) : M bool :=
  s <- get_self ;;
  ret (ltb (thumb_index_distance h) (touch_threshold s)).

(** The body of [for hand_landmarks in results.multi_hand_landmarks]
    in [run]. *)
Definition process_hand (h : Hand) : M unit :=
  s <- get_self ;;
  set_current_key
    (get_key_at_position (layout s) (fst (index_pos h)) (snd (index_pos h))) ;;
  touching <- is_finger_touching_thumb h ;;
  if touching then
    s' <- get_self ;;
    match current_key s' with
    | Some key => if str_truthy key then type_key (clock h) key else ret tt
    | None => ret tt
    end
  else ret tt.

(** One iteration of the [while True] loop of [run] for a frame that
    was captured. *)
Definition process_frame (hands : Frame) : M unit :=
  set_current_key None ;;
  for_each hands process_hand.

(** [run] over the frames captured until the loop is left. *)
Definition run (frames : list Frame) : M unit :=
  for_each frames process_frame.

End Sink.


(** The object [init] yields. *)
Definition fresh : t :=
  {| layout := default_layout;
     touch_threshold := 30;
     last_key_time := 0;
     key_press_delay := 1 # 2;
     typed_text := EmptyString;
     current_key := None |}.

Definition fresh_world : World := {| self := fresh; presses := [] |}.

(** The argument [type_key] hands to [pyautogui.press] for [key]. *)
Definition press_arg (key : string) : string :=
  if (key =? "SPACE")%string then "space"
  else if (key =? "BACK")%string then "backspace"
  else lower key.

(** A call of [type_key] emits a key event when it reaches the sink. *)
Definition emits (sink : string -> result unit) (current_time : Q)
    (key : string) (w : World) : Prop :=
  exists p, presses (snd (type_key sink current_time key w)) = (presses w ++ [p])%list.

End VirtualKeyboard.

(** ** OpenCV mouse events *)

Module Cv2.

Definition EVENT_MOUSEMOVE : Z := 0.
Definition EVENT_LBUTTONDOWN : Z := 1.
Definition EVENT_LBUTTONUP : Z := 4.

(** A left-button press as the window system delivers it.  The time of
    the press is known to the window system only: the callback is handed
    the position and nothing else that the scripts read. *)
Record Click : Type := {
  click_time : Q;
  click_x : Z;
  click_y : Z
}.

End Cv2.

(** ** [test_opencv.py]: class [SimpleVirtualKeyboard] *)

Module TestOpenCV.
Import Py Grid.

Record t : Type := {
  layout : Layout;
  typed_text : string
}.

Definition set_typed_text (self : t) (s : string) : t :=
  {| layout := layout self; typed_text := s |}.

(** [mouse_callback(self, event, x, y, flags, param)]; [flags] and
    [param] are not read. *)
Definition mouse_callback (self : t) (event x y : Z) : t :=
  if event =? Cv2.EVENT_LBUTTONDOWN then
    match get_key_at_position (layout self) x y with
    | Some key =>
        if str_truthy key then
          if (key =? "SPACE")%string then
            set_typed_text self (typed_text self ++ " ")
          else if (key =? "BACK")%string then
            (if str_truthy (typed_text self) then
               set_typed_text self (drop_last (typed_text self))
             else self)
          else
            set_typed_text self (typed_text self ++ key)
        else self
    | None => self
    end
  else self.

Definition fresh : t := {| layout := default_layout; typed_text := EmptyString |}.

(** The callback run on a series of left-button presses. *)
Definition click_all (self : t) (clicks : list Cv2.Click) : t :=
  fold_left
    (fun kb c =>
       mouse_callback kb Cv2.EVENT_LBUTTONDOWN (Cv2.click_x c) (Cv2.click_y c))
    clicks self.

End TestOpenCV.

(** ** [enhanced_demo.py]: class [EnhancedVirtualKeyboard] *)

Module EnhancedDemo.
Import Py Grid.

Record t : Type := {
  layout : Layout;
  typed_text : string;
  current_key : option string;
  mouse_pos : Z * Z
}.

Definition set_typed_text (self : t) (s : string) : t :=
  {| layout := layout self;
     typed_text := s;
     current_key := current_key self;
     mouse_pos := mouse_pos self |}.

(** [mouse_callback(self, event, x, y, flags, param)]: every event moves
    the simulated finger, a left-button press also types. *)
Definition mouse_callback (self : t) (event x y : Z) : t :=
  let self :=
    {| layout := layout self;
       typed_text := typed_text self;
       current_key := get_key_at_position (layout self) x y;
       mouse_pos := (x, y) |} in
  if event =? Cv2.EVENT_LBUTTONDOWN then
    match get_key_at_position (layout self) x y with
    | Some key =>
        if str_truthy key then
          if (key =? "SPACE")%string then
            set_typed_text self (typed_text self ++ " ")
          else if (key =? "BACK")%string then
            (if str_truthy (typed_text self) then
               set_typed_text self (drop_last (typed_text self))
             else self)
          else
            set_typed_text self (typed_text self ++ key)
        else self
    | None => self
    end
  else self.

Definition fresh : t :=
  {| layout := default_layout;
     typed_text := EmptyString;
     current_key := None;
     mouse_pos := (640, 360) |}.

(** The callback run on a series of left-button presses. *)
Definition click_all (self : t) (clicks : list Cv2.Click) : t :=
  fold_left
    (fun kb c =>
       mouse_callback kb Cv2.EVENT_LBUTTONDOWN (Cv2.click_x c) (Cv2.click_y c))
    clicks self.

End EnhancedDemo.

(** ** [simple_demo.py]: class [SimpleVirtualKeyboard] *)

Module SimpleDemo.
Import Py Tracker.

(** One entry of [key_positions]. *)
Record KeyInfo : Type := {
  key : string;
  x : Z;
  y : Z;
  width : Z;
  height : Z
}.

Record t : Type := {
  keys : list string;
  key_positions : list KeyInfo;
  touch_threshold : Q;
  typed_text : string
}.

(** The loop of [setup_keyboard], entered at index [i]. *)
Fixpoint setup_from (i : nat) (ks : list string) : list KeyInfo :=
  match ks with
  | [] => []
  | k :: rest =>
      {| key := k; x := 100 + Z.of_nat i * 120; y := 400;
         width := 100; height := 100 |} :: setup_from (S i) rest
  end.

Definition setup_keyboard (ks : list string) : list KeyInfo :=
  setup_from 0 ks.

Definition fresh : t :=
  {| keys := ["A"; "B"; "C"; "D"; "E"];
     key_positions := setup_keyboard ["A"; "B"; "C"; "D"; "E"];
     touch_threshold := 40;
     typed_text := EmptyString |}.

(** [get_key_at_position(self, pos)] as a scan of [key_positions]. *)
Fixpoint scan (infos : list KeyInfo) (pos : Z * Z) : option string :=
  match infos with
  | [] => None
  | info :: rest =>
      if (x info <=? fst pos) && (fst pos <=? x info + width info)
         && (y info <=? snd pos) && (snd pos <=? y info + height info)
      then Some (key info)
      else scan rest pos
  end.

Definition get_key_at_position (self : t) (pos : Z * Z) : option string :=
  scan (key_positions self) pos.

Definition is_touching (self : t) (h : Hand) : bool :=
  ltb (thumb_index_distance h) (touch_threshold self).

(** The body of [for hand_landmarks in results.multi_hand_landmarks] in
    [run]: no clock is read. *)
Definition process_hand (self : t) (h : Hand) : t :=
  let current_key := get_key_at_position self (index_pos h) in
  if is_touching self h && truthy current_key then
    match current_key with
    | Some k =>
        {| keys := keys self;
           key_positions := key_positions self;
           touch_threshold := touch_threshold self;
           typed_text := typed_text self ++ k |}
    | None => self
    end
  else self.

Definition process_frame (self : t) (hands : Frame) : t :=
  fold_left process_hand hands self.

Definition run (self : t) (frames : list Frame) : t :=
  fold_left process_frame frames self.

End SimpleDemo.

(** ** Key event application as the specification words it

    [SPACE] appends one space character; [BACK] removes the last character
    if the buffer is non-empty and does nothing on an empty buffer; any
    other key label appends the text of the label. *)

Module Buffer.

Definition apply_key_event (buffer : string) (label : string) : string :=
  if (label =? "SPACE")%string then buffer ++ " "
  else if (label =? "BACK")%string then
    match buffer with
    | EmptyString => EmptyString
    | String _ _ => Py.drop_last buffer
    end
  else buffer ++ label.

(** The labels of the keys a series of clicks lands on, in order: one
    per click inside a key, none for a click on no key. *)
Definition keys_clicked (g : Grid.Layout) (clicks : list Cv2.Click)
  : list string :=
  flat_map
    (fun c =>
       match Grid.get_key_at_position g (Cv2.click_x c) (Cv2.click_y c) with
       | Some k => [k]
       | None => []
       end)
    clicks.

End Buffer.

(** ** Vocabulary of the debounce statements *)

Module Trace.
Import VirtualKeyboard.

(** Any two calls to the sink are more than [delay] apart, the later
    one after the earlier one. *)
Definition spaced (delay : Q) (l : list Press) : Prop :=
  forall i j pi pj,
    (i < j)%nat ->
    nth_error l i = Some pi ->
    nth_error l j = Some pj ->
    (delay < when pj - when pi)%Q.

(** No call to the sink is later than [last_key_time]. *)
Definition covered (w : World) : Prop :=
  forall p, In p (presses w) -> (when p <= last_key_time (self w))%Q.

(** What the run loop maintains for a fixed [delay]. *)
Definition debounced (delay : Q) (w : World) : Prop :=
  key_press_delay (self w) = delay
  /\ spaced delay (presses w)
  /\ covered w.

(** Nothing that typing touches differs between [w0] and [w]. *)
Definition quiet (w0 w : World) : Prop :=
  presses w = presses w0
  /\ typed_text (self w) = typed_text (self w0)
  /\ last_key_time (self w) = last_key_time (self w0)
  /\ key_press_delay (self w) = key_press_delay (self w0)
  /\ layout (self w) = layout (self w0)
  /\ touch_threshold (self w) = touch_threshold (self w0).

End Trace.

(** ** Concrete worlds, sinks and samples used in the examples *)

Module Samples.
Import Py Tracker.

(** A sink that always completes, and one that always raises. *)
Definition working_sink : string -> result unit := fun _ => Ok tt.
Definition broken_sink : string -> result unit :=
  fun _ => Raise (Exception "FailSafeException").

(** The gesture keyboard after [__init__], with [text] already typed. *)
Definition gesture_world (text : string) : VirtualKeyboard.World :=
  {| VirtualKeyboard.self :=
       {| VirtualKeyboard.layout := Grid.default_layout;
          VirtualKeyboard.touch_threshold := 30;
          VirtualKeyboard.last_key_time := 0;
          VirtualKeyboard.key_press_delay := 1 # 2;
          VirtualKeyboard.typed_text := text;
          VirtualKeyboard.current_key := None |};
     VirtualKeyboard.presses := [] |}.

(** The click keyboard of [test_opencv.py] with [text] already typed. *)
Definition click_keyboard (text : string) : TestOpenCV.t :=
  {| TestOpenCV.layout := Grid.default_layout; TestOpenCV.typed_text := text |}.

(** A hand whose index finger is at [(px, py)] with thumb and index
    finger 10 pixels apart (a closed pinch for both thresholds), seen
    when the clock reads [time]. *)
Definition pinch_at (px py : Z) (time : Q) : Hand :=
  {| index_pos := (px, py); thumb_index_distance := 10; clock := time |}.

End Samples.

(** ** [draw_keyboard]: the key rectangles painted on the overlay

    [draw_keyboard] of [virtual_keyboard.py] and [enhanced_demo.py] walks
    the layout like [get_key_at_position] and fills, for every key, the
    rectangle from [(x, y)] to [(x + key_width, y + key_height)] (both
    corners included, as [cv2.rectangle] does) in the active colour when
    the key is [current_key] and in the normal colour otherwise.  The
    border and the label drawn on top of each rectangle need the font
    metrics of OpenCV and are left out. *)

Module Overlay.
Import Grid.

(** One filled rectangle: its key, its two corners and whether it is
    painted in [active_key_color]. *)
Record KeyBox : Type := {
  box_key : string;
  box_left : Z;
  box_top : Z;
  box_right : Z;
  box_bottom : Z;
  box_active : bool
}.

(** [key == self.current_key], where [current_key] may be [None]. *)
Definition is_current (key : string) (current_key : option string) : bool :=
  match current_key with
  | Some k => (key =? k)%string
  | None => false
  end.

Section Draw.

Variable g : Layout.
Variable current_key : option string.

(** The inner loop of [draw_keyboard], entered at column [col_idx]. *)
Fixpoint draw_row (row_idx col_idx : nat) (row : list string) : list KeyBox :=
  match row with
  | [] => []
  | key :: rest =>
      let x := keyboard_start_x g + Z.of_nat col_idx * (key_width g + key_margin g) in
      let y := keyboard_start_y g + Z.of_nat row_idx * (key_height g + key_margin g) in
      {| box_key := key;
         box_left := x;
         box_top := y;
         box_right := x + key_width g;
         box_bottom := y + key_height g;
         box_active := is_current key current_key |}
      :: draw_row row_idx (S col_idx) rest
  end.

(** The outer loop of [draw_keyboard], entered at row [row_idx]. *)
Fixpoint draw_rows (row_idx : nat) (rows : list (list string)) : list KeyBox :=
  match rows with
  | [] => []
  | row :: rest => draw_row row_idx 0 row ++ draw_rows (S row_idx) rest
  end.

Definition draw_keyboard : list KeyBox :=
  draw_rows 0 (keyboard_layout g).

End Draw.

(** The pixel [(x, y)] is painted by the rectangle [b]. *)
Definition paints (x y : Z) (b : KeyBox) : bool :=
  (box_left b <=? x) && (x <=? box_right b)
  && (box_top b <=? y) && (y <=? box_bottom b).

End Overlay.

(** ** Streams of mouse events and of hand samples *)

Module Streams.
Import Py Grid Tracker.

(** One call of the mouse callback by the window system. *)
Record MouseEvent : Type := {
  event : Z;
  ev_x : Z;
  ev_y : Z
}.

(** The callback of [test_opencv.py] run on the events in order. *)
Definition test_handle_all (self : TestOpenCV.t) (evs : list MouseEvent)
  : TestOpenCV.t :=
  fold_left
    (fun kb e => TestOpenCV.mouse_callback kb (event e) (ev_x e) (ev_y e))
    evs self.

(** The callback of [enhanced_demo.py] run on the events in order. *)
Definition enhanced_handle_all (self : EnhancedDemo.t) (evs : list MouseEvent)
  : EnhancedDemo.t :=
  fold_left
    (fun kb e => EnhancedDemo.mouse_callback kb (event e) (ev_x e) (ev_y e))
    evs self.

(** The left-button presses of a stream. *)
Definition left_presses (evs : list MouseEvent) : list MouseEvent :=
  filter (fun e => event e =? Cv2.EVENT_LBUTTONDOWN) evs.

(** The labels of the keys the left-button presses of a stream land on,
    in order. *)
Definition keys_pressed (g : Layout) (evs : list MouseEvent) : list string :=
  flat_map
    (fun e =>
       if event e =? Cv2.EVENT_LBUTTONDOWN then
         match get_key_at_position g (ev_x e) (ev_y e) with
         | Some k => [k]
         | None => []
         end
       else [])
    evs.

(** A left-button press at [(x, y)]. *)
Definition press_at (x y : Z) : MouseEvent :=
  {| event := Cv2.EVENT_LBUTTONDOWN; ev_x := x; ev_y := y |}.

(** The key a hand sample asks [virtual_keyboard.py] to type: the key
    under the index finger when the pinch is closed and the key is
    truthy. *)
Definition pinched_key (g : Layout) (threshold : Q) (h : Hand) : option string :=
  if ltb (thumb_index_distance h) threshold then
    match get_key_at_position g (fst (index_pos h)) (snd (index_pos h)) with
    | Some k => if str_truthy k then Some k else None
    | None => None
    end
  else None.

Definition pinched_keys (g : Layout) (threshold : Q) (hands : list Hand)
  : list string :=
  flat_map
    (fun h => match pinched_key g threshold h with
              | Some k => [k]
              | None => []
              end)
    hands.

(** The same for [simple_demo.py], which resolves keys on its own
    [key_positions]. *)
Definition simple_pinched_keys (self : SimpleDemo.t) (hands : list Hand)
  : list string :=
  flat_map
    (fun h =>
       if SimpleDemo.is_touching self h then
         match SimpleDemo.get_key_at_position self (index_pos h) with
         | Some k => [k]
         | None => []
         end
       else [])
    hands.

(** Every sample comes more than [delay] after the one before it, the
    first more than [delay] after [last]. *)
Fixpoint apart (delay last : Q) (hands : list Hand) : Prop :=
  match hands with
  | [] => True
  | h :: rest => (delay < clock h - last)%Q /\ apart delay (clock h) rest
  end.

(** The world one sample leaves behind in [virtual_keyboard.py]. *)
Definition step (sink : string -> result unit) (w : VirtualKeyboard.World)
    (h : Hand) : VirtualKeyboard.World :=
  snd (VirtualKeyboard.process_hand sink h w).

(** The world one frame leaves behind in [virtual_keyboard.py]. *)
Definition frame_step (sink : string -> result unit) (w : VirtualKeyboard.World)
    (hands : Frame) : VirtualKeyboard.World :=
  fold_left (step sink) hands (snd (VirtualKeyboard.set_current_key None w)).

(** The clock reading of the last sample of [hands], [last] if there is
    none. *)
Definition final_clock (last : Q) (hands : list Hand) : Q :=
  fold_left (fun _ h => clock h) hands last.

(** An ASCII capital letter. *)
Definition is_upper (c : ascii) : bool :=
  (Nat.leb 65 (nat_of_ascii c) && Nat.leb (nat_of_ascii c) 90)%bool.

Fixpoint has_upper (s : string) : bool :=
  match s with
  | EmptyString => false
  | String c rest => (is_upper c || has_upper rest)%bool
  end.

End Streams.

(** ** [enhanced_demo.py]: the simulated hand *)

Module SimulatedHand.

(** [simulate_hand_landmarks(self, mouse_x, mouse_y)]: the values it
    assigns to [simulated_fingertips] and [simulated_palm_points]. *)
Definition simulate_hand_landmarks (mouse_x mouse_y : Z)
  : list (Z * Z * string) * list (Z * Z * string) :=
  ( [ (mouse_x - 60, mouse_y + 40, "Thumb");
      (mouse_x, mouse_y, "Index");
      (mouse_x + 20, mouse_y - 20, "Middle");
      (mouse_x + 40, mouse_y - 10, "Ring");
      (mouse_x + 60, mouse_y + 10, "Pinky") ],
    [ (mouse_x - 30, mouse_y + 80, "Wrist");
      (mouse_x - 10, mouse_y + 60, "Palm1");
      (mouse_x + 10, mouse_y + 70, "Palm2");
      (mouse_x + 30, mouse_y + 65, "Palm3");
      (mouse_x, mouse_y + 50, "PalmCenter") ] ).

(** [x = max(0, min(x, frame.shape[1]-1))] and the same for [y]: the
    point at which a fingertip or palm circle is drawn in a frame of the
    given size. *)
Definition clamp_to_frame (frame_width frame_height : Z) (p : Z * Z * string)
  : Z * Z :=
  let '(x, y, _) := p in
  (Z.max 0 (Z.min x (frame_width - 1)), Z.max 0 (Z.min y (frame_height - 1))).

End SimulatedHand.

(** ** Geometry of key resolution *)

Module GridFacts.
Import Grid.

Lemma hit_contains g x y r c :
  hit g x y r c = true <-> contains g x y r c.
Proof.
  unfold hit, contains.
  rewrite !andb_true_iff, !Z.leb_le. tauto.
Qed.

Lemma hit_false g x y r c :
  hit g x y r c = false <-> ~ contains g x y r c.
Proof.
  rewrite <- hit_contains.
  destruct (hit g x y r c); split; intros; congruence.
Qed.

(** What the inner loop returns when entered at column [c0]. *)
Lemma scan_row_some g x y r row : forall c0 k,
  scan_row g x y r c0 row = Some k <->
  exists j, nth_error row j = Some k
            /\ contains g x y r (c0 + j)
            /\ forall j', (j' < j)%nat -> ~ contains g x y r (c0 + j').
Proof.
  induction row as [|key rest IH]; intros c0 k; simpl.
  - split; [discriminate|].
    intros [j [Hj _]]. destruct j; discriminate.
  - destruct (hit g x y r c0) eqn:Hh.
    + split.
      * intros [= <-]. exists 0%nat. rewrite Nat.add_0_r.
        split; [reflexivity|]. split; [now apply hit_contains|]. lia.
      * intros [j [Hj [Hc Hfirst]]].
        destruct j as [|j]; [simpl in Hj; congruence|].
        exfalso. apply (Hfirst 0%nat); [lia|].
        rewrite Nat.add_0_r. now apply hit_contains.
    + rewrite IH. apply hit_false in Hh. split.
      * intros [j [Hj [Hc Hfirst]]]. exists (S j).
        split; [exact Hj|].
        split; [now rewrite Nat.add_succ_r|].
        intros [|j'] Hlt.
        -- now rewrite Nat.add_0_r.
        -- rewrite Nat.add_succ_r. apply Hfirst. lia.
      * intros [j [Hj [Hc Hfirst]]].
        destruct j as [|j].
        -- rewrite Nat.add_0_r in Hc. contradiction.
        -- exists j. split; [exact Hj|].
           split; [now rewrite Nat.add_succ_r in Hc|].
           intros j' Hlt. specialize (Hfirst (S j')).
           rewrite Nat.add_succ_r in Hfirst. apply Hfirst. lia.
Qed.

Lemma scan_row_none g x y r row : forall c0,
  scan_row g x y r c0 row = None <->
  forall j, (j < List.length row)%nat -> ~ contains g x y r (c0 + j).
Proof.
  induction row as [|key rest IH]; intros c0; simpl.
  - split; [intros _ j Hj; lia | reflexivity].
  - destruct (hit g x y r c0) eqn:Hh.
    + split; [discriminate|]. intros H. exfalso.
      apply (H 0%nat); [lia|]. rewrite Nat.add_0_r. now apply hit_contains.
    + rewrite IH. apply hit_false in Hh. split.
      * intros H [|j] Hj.
        -- now rewrite Nat.add_0_r.
        -- rewrite Nat.add_succ_r. apply H. lia.
      * intros H j Hj. specialize (H (S j)).
        rewrite Nat.add_succ_r in H. apply H. lia.
Qed.

(** What the outer loop returns when entered at row [r0]. *)
Lemma scan_rows_some g x y rows : forall r0 k,
  scan_rows g x y r0 rows = Some k <->
  exists i j row,
    nth_error rows i = Some row
    /\ nth_error row j = Some k
    /\ contains g x y (r0 + i) j
    /\ forall i' j' row',
         before i' j' i j ->
         nth_error rows i' = Some row' ->
         (j' < List.length row')%nat ->
         ~ contains g x y (r0 + i') j'.
Proof.
  induction rows as [|row rest IH]; intros r0 k; simpl.
  - split; [discriminate|].
    intros (i & j & row & Hi & _). destruct i; discriminate.
  - destruct (scan_row g x y r0 0 row) as [k0|] eqn:Hrow.
    + apply scan_row_some in Hrow. destruct Hrow as (j0 & Hj0 & Hc0 & Hf0).
      simpl in Hc0. split.
      * intros [= <-]. exists 0%nat, j0, row.
        rewrite Nat.add_0_r. split; [reflexivity|].
        split; [assumption|]. split; [assumption|].
        intros i' j' row' [Hlt | [-> Hlt]] Hi' Hj'; [lia|].
        rewrite Nat.add_0_r. now apply (Hf0 j').
      * intros (i & j & row1 & Hi & Hj & Hc & Hf).
        destruct i as [|i].
        -- simpl in Hi. injection Hi as <-. rewrite Nat.add_0_r in Hc.
           destruct (Nat.lt_trichotomy j j0) as [Hlt | [-> | Hgt]].
           ++ exfalso. now apply (Hf0 j).
           ++ congruence.
           ++ exfalso. apply (Hf 0%nat j0 row); try reflexivity.
              ** right. split; [reflexivity | exact Hgt].
              ** apply nth_error_Some. congruence.
              ** now rewrite Nat.add_0_r.
        -- exfalso. apply (Hf 0%nat j0 row); try reflexivity.
           ++ left. lia.
           ++ apply nth_error_Some. congruence.
           ++ now rewrite Nat.add_0_r.
    + rewrite IH. pose proof (proj1 (scan_row_none g x y r0 row 0%nat) Hrow) as Hn.
      simpl in Hn. split.
      * intros (i & j & row1 & Hi & Hj & Hc & Hf).
        exists (S i), j, row1. rewrite Nat.add_succ_r.
        split; [assumption|]. split; [assumption|]. split; [assumption|].
        intros [|i'] j' row' Hb Hi' Hj'.
        -- simpl in Hi'. injection Hi' as <-. rewrite Nat.add_0_r.
           now apply Hn.
        -- rewrite Nat.add_succ_r. simpl in Hi'.
           apply (Hf i' j' row'); try assumption.
           destruct Hb as [Hb | [Hb1 Hb2]]; [left; lia | right; split; [lia | exact Hb2]].
      * intros (i & j & row1 & Hi & Hj & Hc & Hf).
        destruct i as [|i].
        -- simpl in Hi. injection Hi as <-. rewrite Nat.add_0_r in Hc.
           exfalso. apply (Hn j); [|exact Hc].
           apply nth_error_Some. congruence.
        -- simpl in Hi. rewrite Nat.add_succ_r in Hc.
           exists i, j, row1. split; [assumption|]. split; [assumption|]. split; [assumption|].
           intros i' j' row' Hb Hi' Hj'.
           specialize (Hf (S i') j' row'). rewrite Nat.add_succ_r in Hf.
           apply Hf; try assumption.
           destruct Hb as [Hb | [Hb1 Hb2]]; [left; lia | right; split; [lia | exact Hb2]].
Qed.

Lemma scan_rows_none g x y rows : forall r0,
  scan_rows g x y r0 rows = None <->
  forall i j row,
    nth_error rows i = Some row ->
    (j < List.length row)%nat ->
    ~ contains g x y (r0 + i) j.
Proof.
  induction rows as [|row rest IH]; intros r0; simpl.
  - split; [|reflexivity]. intros _ [|i] j row; discriminate.
  - destruct (scan_row g x y r0 0 row) as [k0|] eqn:Hrow.
    + apply scan_row_some in Hrow. destruct Hrow as (j0 & Hj0 & Hc0 & _).
      simpl in Hc0. split; [discriminate|]. intros H. exfalso.
      apply (H 0%nat j0 row); [reflexivity | | now rewrite Nat.add_0_r].
      apply nth_error_Some. congruence.
    + rewrite IH. pose proof (proj1 (scan_row_none g x y r0 row 0%nat) Hrow) as Hn.
      simpl in Hn. split.
      * intros H [|i] j row1 Hi Hj.
        -- simpl in Hi. injection Hi as <-. rewrite Nat.add_0_r. now apply Hn.
        -- simpl in Hi. rewrite Nat.add_succ_r. now apply (H i j row1).
      * intros H i j row1 Hi Hj. specialize (H (S i) j row1).
        rewrite Nat.add_succ_r in H. now apply H.
Qed.

Lemma key_at_some g r c k :
  key_at g r c = Some k <->
  exists row, nth_error (keyboard_layout g) r = Some row
              /\ nth_error row c = Some k.
Proof.
  unfold key_at. destruct (nth_error (keyboard_layout g) r) as [row|].
  - split; [intros H; now exists row | intros (row' & [= <-] & H); exact H].
  - split; [discriminate | intros (row' & H & _); discriminate].
Qed.

(** The scan in the vocabulary of slots: the first slot, in row-major
    order, that contains the point. *)
Lemma first_match_among_slots (g : Layout) (x y : Z) :
  (forall k,
      get_key_at_position g x y = Some k <->
      exists row col,
        key_at g row col = Some k
        /\ contains g x y row col
        /\ forall row' col' k',
             key_at g row' col' = Some k' ->
             before row' col' row col ->
             ~ contains g x y row' col')
  /\ (get_key_at_position g x y = None <->
      forall row col k,
        key_at g row col = Some k -> ~ contains g x y row col).
Proof.
  unfold get_key_at_position. split.
  - intros k. rewrite scan_rows_some. split.
    + intros (i & j & row & Hi & Hj & Hc & Hf). exists i, j.
      split; [apply key_at_some; now exists row|].
      split; [exact Hc|].
      intros i' j' k' Hk Hb. apply key_at_some in Hk.
      destruct Hk as (row' & Hi' & Hj').
      apply (Hf i' j' row' Hb Hi'). apply nth_error_Some. congruence.
    + intros (i & j & Hk & Hc & Hf). apply key_at_some in Hk.
      destruct Hk as (row & Hi & Hj). exists i, j, row.
      split; [assumption|]. split; [assumption|]. split; [assumption|].
      intros i' j' row' Hb Hi' Hj'. simpl.
      destruct (nth_error row' j') as [k'|] eqn:Hk'.
      * apply (Hf i' j' k'); [|exact Hb].
        apply key_at_some. now exists row'.
      * apply nth_error_None in Hk'. lia.
  - rewrite scan_rows_none. split.
    + intros H i j k Hk. apply key_at_some in Hk.
      destruct Hk as (row & Hi & Hj).
      apply (H i j row Hi). apply nth_error_Some. congruence.
    + intros H i j row Hi Hj. simpl.
      destruct (nth_error row j) as [k|] eqn:Hk.
      * apply (H i j k). apply key_at_some. now exists row.
      * apply nth_error_None in Hk. lia.
Qed.

(** C3. Key resolution scans the rows from the top and the columns of
    each row from the left.  It returns key [k] exactly when [k] is the
    key number [col] of row number [row] for the first pair
    [(row, col)], in row-major order, such that
    [origin_x + col*(key_width+margin) <= x <= origin_x + col*(key_width+margin) + key_width]
    and
    [origin_y + row*(key_height+margin) <= y <= origin_y + row*(key_height+margin) + key_height],
    both bounds included; and it returns [None] exactly when no key of
    the layout has a rectangle that contains [(x, y)]. *)
Theorem get_key_at_position_first_containing_slot (g : Layout) (x y : Z) :
  (forall k,
      get_key_at_position g x y = Some k <->
      exists row col keys,
        nth_error (keyboard_layout g) row = Some keys
        /\ nth_error keys col = Some k
        /\ (keyboard_start_x g + Z.of_nat col * (key_width g + key_margin g) <= x
            <= keyboard_start_x g + Z.of_nat col * (key_width g + key_margin g)
               + key_width g)
        /\ (keyboard_start_y g + Z.of_nat row * (key_height g + key_margin g) <= y
            <= keyboard_start_y g + Z.of_nat row * (key_height g + key_margin g)
               + key_height g)
        /\ forall row' col' keys' k',
             nth_error (keyboard_layout g) row' = Some keys' ->
             nth_error keys' col' = Some k' ->
             (row' < row)%nat \/ (row' = row /\ (col' < col)%nat) ->
             ~ ((keyboard_start_x g + Z.of_nat col' * (key_width g + key_margin g) <= x
                 <= keyboard_start_x g + Z.of_nat col' * (key_width g + key_margin g)
                    + key_width g)
                /\ (keyboard_start_y g + Z.of_nat row' * (key_height g + key_margin g)
                    <= y
                    <= keyboard_start_y g + Z.of_nat row' * (key_height g + key_margin g)
                       + key_height g)))
  /\ (get_key_at_position g x y = None <->
      forall row col keys k,
        nth_error (keyboard_layout g) row = Some keys ->
        nth_error keys col = Some k ->
        ~ ((keyboard_start_x g + Z.of_nat col * (key_width g + key_margin g) <= x
            <= keyboard_start_x g + Z.of_nat col * (key_width g + key_margin g)
               + key_width g)
           /\ (keyboard_start_y g + Z.of_nat row * (key_height g + key_margin g) <= y
               <= keyboard_start_y g + Z.of_nat row * (key_height g + key_margin g)
                  + key_height g))).
Proof.
  destruct (first_match_among_slots g x y) as [Hsome Hnone]. split.
  - intros k. rewrite Hsome. split.
    + intros (row & col & Hk & [Hx Hy] & Hfirst).
      apply key_at_some in Hk. destruct Hk as (keys & Hrow & Hcol).
      exists row, col, keys.
      split; [exact Hrow|]. split; [exact Hcol|].
      split; [exact Hx|]. split; [exact Hy|].
      intros row' col' keys' k' Hrow' Hcol' Hb Hin.
      apply (Hfirst row' col' k'); [|exact Hb | exact Hin].
      apply key_at_some. now exists keys'.
    + intros (row & col & keys & Hrow & Hcol & Hx & Hy & Hfirst).
      exists row, col.
      split; [apply key_at_some; now exists keys|].
      split; [split; [exact Hx | exact Hy]|].
      intros row' col' k' Hk Hb Hin.
      apply key_at_some in Hk. destruct Hk as (keys' & Hrow' & Hcol').
      exact (Hfirst row' col' keys' k' Hrow' Hcol' Hb Hin).
  - rewrite Hnone. split.
    + intros H row col keys k Hrow Hcol Hin.
      apply (H row col k); [|exact Hin]. apply key_at_some. now exists keys.
    + intros H row col k Hk Hin.
      apply key_at_some in Hk. destruct Hk as (keys & Hrow & Hcol).
      exact (H row col keys k Hrow Hcol Hin).
Qed.

(** The slot geometry written out, as the drawing code also computes it. *)
Lemma contains_unfold g x y row col :
  contains g x y row col <->
  keyboard_start_x g + Z.of_nat col * (key_width g + key_margin g) <= x
  /\ x <= keyboard_start_x g + Z.of_nat col * (key_width g + key_margin g)
          + key_width g
  /\ keyboard_start_y g + Z.of_nat row * (key_height g + key_margin g) <= y
  /\ y <= keyboard_start_y g + Z.of_nat row * (key_height g + key_margin g)
          + key_height g.
Proof. unfold contains, key_x, key_y. tauto. Qed.

Example resolve_origin : get_key_at_position default_layout 150 450 = Some "Q".
Proof. reflexivity. Qed.

Example resolve_gap : get_key_at_position default_layout 210 450 = None.
Proof. reflexivity. Qed.

Example resolve_second : get_key_at_position default_layout 220 450 = Some "W".
Proof. reflexivity. Qed.

End GridFacts.

(** ** The debounced [type_key] *)

Module TypeKeyFacts.
Import Py Grid Tracker VirtualKeyboard.

Lemma gtb_true (a b : Q) : gtb a b = true <-> (b < a)%Q.
Proof.
  unfold gtb. rewrite negb_true_iff. split.
  - intros H. apply Qnot_le_lt. intros Hle.
    apply Qle_bool_iff in Hle. congruence.
  - intros H. destruct (Qle_bool a b) eqn:E; [|reflexivity].
    apply Qle_bool_iff in E. exfalso. exact (Qlt_not_le _ _ H E).
Qed.

Lemma gtb_false (a b : Q) : gtb a b = false <-> (a <= b)%Q.
Proof.
  unfold gtb. rewrite negb_false_iff. apply Qle_bool_iff.
Qed.

Lemma ltb_true (a b : Q) : ltb a b = true <-> (a < b)%Q.
Proof. apply gtb_true. Qed.

Lemma append_empty (s : string) : s ++ EmptyString = s.
Proof. induction s as [|c s IH]; simpl; [reflexivity | now rewrite IH]. Qed.

Lemma drop_last_snoc (s : string) (c : ascii) :
  drop_last (s ++ String c EmptyString) = s.
Proof.
  induction s as [|d s IH]; simpl; [reflexivity|].
  rewrite IH. destruct s; reflexivity.
Qed.

Lemma truthy_nonempty (s : string) : str_truthy s = false <-> s = EmptyString.
Proof. destruct s; simpl; split; congruence. Qed.

(** The world after a call of [type_key] that passes its time test. *)
Lemma type_key_fires sink t key w :
  (key_press_delay (self w) < t - last_key_time (self w))%Q ->
  type_key sink t key w =
  (Ok tt,
   {| self := {| layout := layout (self w);
                 touch_threshold := touch_threshold (self w);
                 last_key_time := t;
                 key_press_delay := key_press_delay (self w);
                 typed_text := Buffer.apply_key_event (typed_text (self w)) key;
                 current_key := current_key (self w) |};
      presses := presses w ++ [ {| when := t; pressed_key := press_arg key |} ] |}).
Proof.
  intros H. apply gtb_true in H.
  unfold type_key, bind, get_self, try_except. simpl. rewrite H.
  unfold Buffer.apply_key_event, press_arg.
  destruct (key =? "SPACE")%string; [|destruct (key =? "BACK")%string].
  - unfold pyautogui_press, set_typed_text. simpl.
    destruct (sink "space"); reflexivity.
  - destruct (typed_text (self w)) eqn:Ht; simpl;
      unfold pyautogui_press, set_typed_text, ret; simpl;
      destruct (sink "backspace"); simpl; rewrite ?Ht; try reflexivity;
      destruct w as [[] ?]; simpl in *; subst; reflexivity.
  - unfold pyautogui_press, set_typed_text. simpl.
    destruct (sink (lower key)); reflexivity.
Qed.

(** A call of [type_key] that does not pass its time test. *)
Lemma type_key_blocked sink t key w :
  (t - last_key_time (self w) <= key_press_delay (self w))%Q ->
  type_key sink t key w = (Ok tt, w).
Proof.
  intros H. apply gtb_false in H.
  unfold type_key, bind, get_self. simpl. rewrite H. reflexivity.
Qed.

Lemma type_key_completes sink t key w : fst (type_key sink t key w) = Ok tt.
Proof.
  destruct (Qlt_le_dec (key_press_delay (self w)) (t - last_key_time (self w)))
    as [H | H].
  - now rewrite (type_key_fires sink t key w H).
  - now rewrite (type_key_blocked sink t key w H).
Qed.

(** Without the [try], a raising sink makes the call raise: the failure
    that [type_key] has to swallow is real. *)
Lemma pyautogui_press_propagates sink t arg w e :
  sink arg = Raise e -> fst (pyautogui_press sink t arg w) = Raise e.
Proof. intros H. unfold pyautogui_press. simpl. exact H. Qed.

(** C2 (amended). A call of [type_key] emits a key event exactly when
    the time elapsed since the last emitted event is strictly greater
    than [key_press_delay]: the comparison
    [current_time - last_key_time > key_press_delay] is exclusive. *)
Theorem type_key_emits_iff_strictly_later sink t key w :
  emits sink t key w <->
  (key_press_delay (self w) < t - last_key_time (self w))%Q.
Proof.
  unfold emits.
  destruct (Qlt_le_dec (key_press_delay (self w)) (t - last_key_time (self w)))
    as [H | H].
  - rewrite (type_key_fires sink t key w H). simpl.
    split; [intros _; exact H | intros _; eexists; reflexivity].
  - rewrite (type_key_blocked sink t key w H). simpl. split.
    + intros [p Hp]. apply (f_equal (@List.length Press)) in Hp.
      rewrite length_app in Hp. simpl in Hp. lia.
    + intros H'. exfalso. exact (Qlt_not_le _ _ H' H).
Qed.

(** C2, as stated, fails: a gesture that arrives exactly
    [key_press_delay] after the last event emits nothing. *)
Lemma type_key_silent_at_exact_delay :
  (key_press_delay fresh <= (1 # 2) - last_key_time fresh)%Q
  /\ ~ emits (fun _ => Ok tt) (1 # 2) "Q" fresh_world.
Proof.
  split.
  - vm_compute. discriminate.
  - intros [p Hp]. vm_compute in Hp. discriminate.
Qed.

(** C9. Whatever the key-injection call does, [type_key] completes
    without raising, and the world it leaves (typed text, time of the
    last event, every other attribute) is the same for any two
    behaviours of the sink. *)
Theorem injection_outcome_is_irrelevant (sink sink' : string -> result unit)
    (t : Q) (key : string) (w : World) :
  fst (type_key sink t key w) = Ok tt
  /\ snd (type_key sink t key w) = snd (type_key sink' t key w).
Proof.
  split; [apply type_key_completes|].
  destruct (Qlt_le_dec (key_press_delay (self w)) (t - last_key_time (self w)))
    as [H | H].
  - now rewrite (type_key_fires sink t key w H), (type_key_fires sink' t key w H).
  - now rewrite (type_key_blocked sink t key w H), (type_key_blocked sink' t key w H).
Qed.

(** C10. When the time test rejects the call (the elapsed time is not
    greater than [key_press_delay]), [type_key] changes nothing: text,
    time of the last event, every other attribute and the calls made to
    the sink are as before. *)
Theorem type_key_rejected_is_noop sink t key w :
  (t - last_key_time (self w) <= key_press_delay (self w))%Q ->
  type_key sink t key w = (Ok tt, w).
Proof. apply type_key_blocked. Qed.

Lemma type_key_rejected_is_noop_witness :
  ((1 # 4) - last_key_time fresh <= key_press_delay fresh)%Q
  /\ type_key (fun _ => Raise (Exception "FailSafeException")) (1 # 4) "Q"
       fresh_world
     = (Ok tt, fresh_world).
Proof.
  assert (H : ((1 # 4) - last_key_time (self fresh_world)
               <= key_press_delay (self fresh_world))%Q)
    by (vm_compute; discriminate).
  split; [exact H|].
  exact (type_key_rejected_is_noop _ (1 # 4) "Q" fresh_world H).
Defined.

End TypeKeyFacts.

(** ** Typing by mouse click *)

Module ClickFacts.
Import Py Grid TypeKeyFacts.

Lemma apply_empty_label (buffer : string) :
  Buffer.apply_key_event buffer EmptyString = buffer.
Proof. unfold Buffer.apply_key_event. simpl. apply append_empty. Qed.

Lemma test_click kb x y :
  TestOpenCV.layout (TestOpenCV.mouse_callback kb Cv2.EVENT_LBUTTONDOWN x y)
  = TestOpenCV.layout kb
  /\ TestOpenCV.typed_text (TestOpenCV.mouse_callback kb Cv2.EVENT_LBUTTONDOWN x y)
     = match get_key_at_position (TestOpenCV.layout kb) x y with
       | Some k => Buffer.apply_key_event (TestOpenCV.typed_text kb) k
       | None => TestOpenCV.typed_text kb
       end.
Proof.
  unfold TestOpenCV.mouse_callback. simpl.
  destruct (get_key_at_position (TestOpenCV.layout kb) x y) as [k|];
    [|split; reflexivity].
  destruct (str_truthy k) eqn:Hk.
  - unfold Buffer.apply_key_event.
    destruct (k =? "SPACE")%string; [split; reflexivity|].
    destruct (k =? "BACK")%string; [|split; reflexivity].
    destruct (TestOpenCV.typed_text kb) eqn:Ht; simpl; rewrite ?Ht; split; reflexivity.
  - apply truthy_nonempty in Hk. subst k.
    rewrite apply_empty_label. split; reflexivity.
Qed.

Lemma enhanced_click kb x y :
  EnhancedDemo.layout (EnhancedDemo.mouse_callback kb Cv2.EVENT_LBUTTONDOWN x y)
  = EnhancedDemo.layout kb
  /\ EnhancedDemo.typed_text
       (EnhancedDemo.mouse_callback kb Cv2.EVENT_LBUTTONDOWN x y)
     = match get_key_at_position (EnhancedDemo.layout kb) x y with
       | Some k => Buffer.apply_key_event (EnhancedDemo.typed_text kb) k
       | None => EnhancedDemo.typed_text kb
       end.
Proof.
  unfold EnhancedDemo.mouse_callback. simpl.
  destruct (get_key_at_position (EnhancedDemo.layout kb) x y) as [k|];
    [|split; reflexivity].
  destruct (str_truthy k) eqn:Hk.
  - unfold Buffer.apply_key_event.
    destruct (k =? "SPACE")%string; [split; reflexivity|].
    destruct (k =? "BACK")%string; [|split; reflexivity].
    destruct (EnhancedDemo.typed_text kb) eqn:Ht; simpl; rewrite ?Ht; split; reflexivity.
  - apply truthy_nonempty in Hk. subst k.
    rewrite apply_empty_label. split; reflexivity.
Qed.

Lemma test_click_all clicks : forall kb,
  TestOpenCV.typed_text (TestOpenCV.click_all kb clicks)
  = fold_left Buffer.apply_key_event
      (Buffer.keys_clicked (TestOpenCV.layout kb) clicks)
      (TestOpenCV.typed_text kb).
Proof.
  unfold TestOpenCV.click_all.
  induction clicks as [|c rest IH]; intros kb; simpl; [reflexivity|].
  rewrite IH. destruct (test_click kb (Cv2.click_x c) (Cv2.click_y c)) as [Hl Ht].
  rewrite Hl, Ht, fold_left_app.
  destruct (get_key_at_position (TestOpenCV.layout kb) (Cv2.click_x c) (Cv2.click_y c));
    reflexivity.
Qed.

Lemma enhanced_click_all clicks : forall kb,
  EnhancedDemo.typed_text (EnhancedDemo.click_all kb clicks)
  = fold_left Buffer.apply_key_event
      (Buffer.keys_clicked (EnhancedDemo.layout kb) clicks)
      (EnhancedDemo.typed_text kb).
Proof.
  unfold EnhancedDemo.click_all.
  induction clicks as [|c rest IH]; intros kb; simpl; [reflexivity|].
  rewrite IH.
  destruct (enhanced_click kb (Cv2.click_x c) (Cv2.click_y c)) as [Hl Ht].
  rewrite Hl, Ht, fold_left_app.
  destruct (get_key_at_position (EnhancedDemo.layout kb) (Cv2.click_x c) (Cv2.click_y c));
    reflexivity.
Qed.

(** C6. In both click demos every left-button press that lands on a key
    applies exactly one key event to the buffer and a press on no key
    applies none, whatever the times of the presses: the buffer after a
    series of presses is the buffer after the key events of the keys
    pressed, one after the other.  No time is read or stored, and moving
    the mouse or releasing the button types nothing. *)
Theorem click_fires_once_per_key_pressed
    (kb : TestOpenCV.t) (kbe : EnhancedDemo.t) (clicks : list Cv2.Click)
    (x y : Z) :
  TestOpenCV.typed_text (TestOpenCV.click_all kb clicks)
  = fold_left Buffer.apply_key_event
      (Buffer.keys_clicked (TestOpenCV.layout kb) clicks)
      (TestOpenCV.typed_text kb)
  /\ EnhancedDemo.typed_text (EnhancedDemo.click_all kbe clicks)
     = fold_left Buffer.apply_key_event
         (Buffer.keys_clicked (EnhancedDemo.layout kbe) clicks)
         (EnhancedDemo.typed_text kbe)
  /\ TestOpenCV.mouse_callback kb Cv2.EVENT_MOUSEMOVE x y = kb
  /\ TestOpenCV.mouse_callback kb Cv2.EVENT_LBUTTONUP x y = kb
  /\ EnhancedDemo.typed_text (EnhancedDemo.mouse_callback kbe Cv2.EVENT_MOUSEMOVE x y)
     = EnhancedDemo.typed_text kbe
  /\ EnhancedDemo.typed_text (EnhancedDemo.mouse_callback kbe Cv2.EVENT_LBUTTONUP x y)
     = EnhancedDemo.typed_text kbe.
Proof.
  split; [apply test_click_all|].
  split; [apply enhanced_click_all|].
  repeat split.
Qed.

Example two_clicks_a_millisecond_apart :
  TestOpenCV.typed_text
    (TestOpenCV.click_all TestOpenCV.fresh
       [ {| Cv2.click_time := 1; Cv2.click_x := 150; Cv2.click_y := 450 |};
         {| Cv2.click_time := 1001 # 1000; Cv2.click_x := 150; Cv2.click_y := 450 |};
         {| Cv2.click_time := 2; Cv2.click_x := 10; Cv2.click_y := 10 |} ])
  = "QQ".
Proof. reflexivity. Qed.

End ClickFacts.

(** ** What a key event does to the text buffer *)

Module BufferFacts.
Import Py Grid VirtualKeyboard TypeKeyFacts ClickFacts.

Lemma apply_space buffer : Buffer.apply_key_event buffer "SPACE" = buffer ++ " ".
Proof. reflexivity. Qed.

Lemma apply_back_empty : Buffer.apply_key_event EmptyString "BACK" = EmptyString.
Proof. reflexivity. Qed.

Lemma apply_back_snoc s c :
  Buffer.apply_key_event (s ++ String c EmptyString) "BACK" = s.
Proof.
  unfold Buffer.apply_key_event. simpl.
  destruct (s ++ String c EmptyString) eqn:E.
  - destruct s; discriminate.
  - rewrite <- E. apply drop_last_snoc.
Qed.

Lemma apply_label buffer key :
  key <> "SPACE" -> key <> "BACK" ->
  Buffer.apply_key_event buffer key = buffer ++ key.
Proof.
  intros Hs Hb. unfold Buffer.apply_key_event.
  apply String.eqb_neq in Hs. apply String.eqb_neq in Hb.
  now rewrite Hs, Hb.
Qed.

Lemma typed_after_fire sink t key w :
  (key_press_delay (self w) < t - last_key_time (self w))%Q ->
  typed_text (self (snd (type_key sink t key w)))
  = Buffer.apply_key_event (typed_text (self w)) key.
Proof. intros H. now rewrite (type_key_fires sink t key w H). Qed.

(** C7. A [BACK] key event on an empty buffer leaves it empty and
    raises nothing; on a buffer that ends in a character [c] it removes
    [c] and keeps what precedes it.  This holds for [type_key] once its
    time test passes and for a click on the [BACK] key in
    [test_opencv.py]. *)
Theorem back_removes_last_character sink t w kb x y :
  (key_press_delay (self w) < t - last_key_time (self w))%Q ->
  get_key_at_position (TestOpenCV.layout kb) x y = Some "BACK" ->
  fst (type_key sink t "BACK" w) = Ok tt
  /\ (typed_text (self w) = EmptyString ->
      typed_text (self (snd (type_key sink t "BACK" w))) = EmptyString)
  /\ (forall s c,
        typed_text (self w) = s ++ String c EmptyString ->
        typed_text (self (snd (type_key sink t "BACK" w))) = s)
  /\ (TestOpenCV.typed_text kb = EmptyString ->
      TestOpenCV.typed_text
        (TestOpenCV.mouse_callback kb Cv2.EVENT_LBUTTONDOWN x y) = EmptyString)
  /\ (forall s c,
        TestOpenCV.typed_text kb = s ++ String c EmptyString ->
        TestOpenCV.typed_text
          (TestOpenCV.mouse_callback kb Cv2.EVENT_LBUTTONDOWN x y) = s).
Proof.
  intros Ht Hk.
  split; [apply type_key_completes|].
  rewrite (typed_after_fire sink t "BACK" w Ht).
  destruct (test_click kb x y) as [_ Hc]. rewrite Hk in Hc. rewrite Hc.
  split; [intros ->; apply apply_back_empty|].
  split; [intros s c ->; apply apply_back_snoc|].
  split; [intros ->; apply apply_back_empty|].
  intros s c ->. apply apply_back_snoc.
Qed.

Lemma back_removes_last_character_witness :
  (key_press_delay (self (Samples.gesture_world "HI"))
   < 1 - last_key_time (self (Samples.gesture_world "HI")))%Q
  /\ get_key_at_position (TestOpenCV.layout (Samples.click_keyboard "HI")) 220 660
     = Some "BACK"
  /\ typed_text
       (self (snd (type_key Samples.broken_sink 1 "BACK" (Samples.gesture_world "HI"))))
     = "H"
  /\ TestOpenCV.typed_text
       (TestOpenCV.mouse_callback (Samples.click_keyboard "HI")
          Cv2.EVENT_LBUTTONDOWN 220 660)
     = "H".
Proof.
  assert (Ht : (key_press_delay (self (Samples.gesture_world "HI"))
                < 1 - last_key_time (self (Samples.gesture_world "HI")))%Q)
    by reflexivity.
  assert (Hk : get_key_at_position
                 (TestOpenCV.layout (Samples.click_keyboard "HI")) 220 660
               = Some "BACK") by reflexivity.
  destruct (back_removes_last_character Samples.broken_sink 1
              (Samples.gesture_world "HI") (Samples.click_keyboard "HI")
              220 660 Ht Hk) as (_ & _ & Hg & _ & Hc).
  split; [exact Ht|]. split; [exact Hk|].
  split; [apply (Hg "H" "I"%char); reflexivity
         | apply (Hc "H" "I"%char); reflexivity].
Defined.

(** C8. A [SPACE] key event appends one space character, and a key
    event whose label is neither [SPACE] nor [BACK] appends the label as
    it is; what was in the buffer stays in front.  This holds for
    [type_key] once its time test passes and for clicks on such keys in
    [test_opencv.py]. *)
Theorem space_and_labels_append sink t w kb key xs ys xk yk :
  (key_press_delay (self w) < t - last_key_time (self w))%Q ->
  key <> "SPACE" ->
  key <> "BACK" ->
  get_key_at_position (TestOpenCV.layout kb) xs ys = Some "SPACE" ->
  get_key_at_position (TestOpenCV.layout kb) xk yk = Some key ->
  typed_text (self (snd (type_key sink t "SPACE" w))) = typed_text (self w) ++ " "
  /\ typed_text (self (snd (type_key sink t key w))) = typed_text (self w) ++ key
  /\ TestOpenCV.typed_text
       (TestOpenCV.mouse_callback kb Cv2.EVENT_LBUTTONDOWN xs ys)
     = TestOpenCV.typed_text kb ++ " "
  /\ TestOpenCV.typed_text
       (TestOpenCV.mouse_callback kb Cv2.EVENT_LBUTTONDOWN xk yk)
     = TestOpenCV.typed_text kb ++ key.
Proof.
  intros Ht Hs Hb Hxs Hxk.
  rewrite !(typed_after_fire sink t _ w Ht).
  destruct (test_click kb xs ys) as [_ Hcs]. rewrite Hxs in Hcs.
  destruct (test_click kb xk yk) as [_ Hck]. rewrite Hxk in Hck.
  rewrite Hcs, Hck, !apply_space, !(apply_label _ key Hs Hb).
  repeat split.
Qed.

Lemma space_and_labels_append_witness :
  (key_press_delay (self (Samples.gesture_world "HI"))
   < 1 - last_key_time (self (Samples.gesture_world "HI")))%Q
  /\ "Q" <> "SPACE"
  /\ "Q" <> "BACK"
  /\ get_key_at_position (TestOpenCV.layout (Samples.click_keyboard "HI")) 150 660
     = Some "SPACE"
  /\ get_key_at_position (TestOpenCV.layout (Samples.click_keyboard "HI")) 150 450
     = Some "Q"
  /\ typed_text
       (self (snd (type_key Samples.working_sink 1 "Q" (Samples.gesture_world "HI"))))
     = "HIQ"
  /\ TestOpenCV.typed_text
       (TestOpenCV.mouse_callback (Samples.click_keyboard "HI")
          Cv2.EVENT_LBUTTONDOWN 150 660)
     = "HI ".
Proof.
  assert (Ht : (key_press_delay (self (Samples.gesture_world "HI"))
                < 1 - last_key_time (self (Samples.gesture_world "HI")))%Q)
    by reflexivity.
  assert (Hs : "Q" <> "SPACE") by discriminate.
  assert (Hb : "Q" <> "BACK") by discriminate.
  assert (Hxs : get_key_at_position
                  (TestOpenCV.layout (Samples.click_keyboard "HI")) 150 660
                = Some "SPACE") by reflexivity.
  assert (Hxk : get_key_at_position
                  (TestOpenCV.layout (Samples.click_keyboard "HI")) 150 450
                = Some "Q") by reflexivity.
  destruct (space_and_labels_append Samples.working_sink 1
              (Samples.gesture_world "HI") (Samples.click_keyboard "HI") "Q"
              150 660 150 450 Ht Hs Hb Hxs Hxk) as (_ & Hg & Hc & _).
  split; [exact Ht|]. split; [exact Hs|]. split; [exact Hb|].
  split; [exact Hxs|]. split; [exact Hxk|]. split; [exact Hg | exact Hc].
Defined.

Example space_back_back :
  fold_left Buffer.apply_key_event ["SPACE"; "BACK"; "BACK"] EmptyString = EmptyString.
Proof. reflexivity. Qed.

End BufferFacts.

(** ** The run loop of the gesture keyboard *)

Module RunFacts.
Import Py Grid Tracker VirtualKeyboard Trace TypeKeyFacts.

(** The loop body either only records the hovered key, or records it
    and calls [type_key] with the clock reading of the sample. *)
Lemma process_hand_cases sink h w :
  exists k,
    process_hand sink h w = (Ok tt, snd (set_current_key k w))
    \/ exists key,
         process_hand sink h w
         = type_key sink (clock h) key (snd (set_current_key k w)).
Proof.
  exists (get_key_at_position (layout (self w))
            (fst (index_pos h)) (snd (index_pos h))).
  unfold process_hand, is_finger_touching_thumb, bind, get_self, ret. simpl.
  destruct (ltb (thumb_index_distance h) (touch_threshold (self w)));
    [|left; reflexivity].
  destruct (get_key_at_position (layout (self w))
              (fst (index_pos h)) (snd (index_pos h))) as [key|];
    [|left; reflexivity].
  simpl. destruct (str_truthy key); [right; exists key|left]; reflexivity.
Qed.

Section Preservation.

Variable sink : string -> result unit.
(** A property of clock readings and a property of worlds ... *)
Variable T : Q -> Prop.
Variable P : World -> Prop.
(** ... that recording the hovered key and typing at such a reading
    maintain. *)
Hypothesis P_current_key : forall k w, P w -> P (snd (set_current_key k w)).
Hypothesis P_type_key :
  forall t key w, T t -> P w -> P (snd (type_key sink t key w)).

Lemma process_hand_preserves h w :
  T (clock h) -> P w ->
  fst (process_hand sink h w) = Ok tt /\ P (snd (process_hand sink h w)).
Proof.
  intros Ht Hw. destruct (process_hand_cases sink h w) as [k [E | [key E]]];
    rewrite E.
  - split; [reflexivity | now apply P_current_key].
  - split; [apply type_key_completes|].
    apply P_type_key; [exact Ht | now apply P_current_key].
Qed.

Lemma hands_preserve hands : forall w,
  (forall h, In h hands -> T (clock h)) -> P w ->
  fst (for_each hands (process_hand sink) w) = Ok tt
  /\ P (snd (for_each hands (process_hand sink) w)).
Proof.
  induction hands as [|h rest IH]; intros w Hall Hw; simpl.
  - split; [reflexivity | exact Hw].
  - unfold bind.
    destruct (process_hand_preserves h w (Hall h (or_introl eq_refl)) Hw)
      as [Hok Hp].
    destruct (process_hand sink h w) as [[[]|e] w1]; simpl in *;
      [|discriminate].
    apply IH; [|exact Hp]. intros h' Hin. apply Hall. now right.
Qed.

Lemma process_frame_preserves hands w :
  (forall h, In h hands -> T (clock h)) -> P w ->
  fst (process_frame sink hands w) = Ok tt
  /\ P (snd (process_frame sink hands w)).
Proof.
  intros Hall Hw. unfold process_frame, bind.
  change (set_current_key None w) with (Ok tt, snd (set_current_key None w)).
  apply hands_preserve; [exact Hall | now apply P_current_key].
Qed.

Lemma run_preserves frames : forall w,
  (forall f h, In f frames -> In h f -> T (clock h)) -> P w ->
  fst (run sink frames w) = Ok tt /\ P (snd (run sink frames w)).
Proof.
  unfold run.
  induction frames as [|f rest IH]; intros w Hall Hw; simpl.
  - split; [reflexivity | exact Hw].
  - unfold bind.
    destruct (process_frame_preserves f w
                (fun h Hh => Hall f h (or_introl eq_refl) Hh) Hw)
      as [Hok Hp].
    destruct (process_frame sink f w) as [[[]|e] w1]; simpl in *;
      [|discriminate].
    apply IH; [|exact Hp]. intros f' h Hf Hh. apply (Hall f' h); [now right | exact Hh].
Qed.

End Preservation.

Lemma quiet_refl w : quiet w w.
Proof. unfold quiet. tauto. Qed.

Lemma quiet_current_key w0 k w :
  quiet w0 w -> quiet w0 (snd (set_current_key k w)).
Proof. unfold quiet. simpl. tauto. Qed.

(** A call within [key_press_delay] of the last event changes nothing. *)
Lemma quiet_type_key sink w0 t key w :
  (t - last_key_time (self w0) <= key_press_delay (self w0))%Q ->
  quiet w0 w -> quiet w0 (snd (type_key sink t key w)).
Proof.
  intros Ht Hq. rewrite type_key_blocked; [exact Hq|].
  destruct Hq as (_ & _ & Hl & Hd & _). now rewrite Hl, Hd.
Qed.

(** A sample with the pinch closed over a key, later than
    [key_press_delay] after the last event, types the key. *)
Lemma process_hand_fires sink h k w :
  get_key_at_position (layout (self w)) (fst (index_pos h)) (snd (index_pos h))
  = Some k ->
  str_truthy k = true ->
  (thumb_index_distance h < touch_threshold (self w))%Q ->
  (key_press_delay (self w) < clock h - last_key_time (self w))%Q ->
  presses (snd (process_hand sink h w))
  = (presses w ++ [ {| when := clock h; pressed_key := press_arg k |} ])%list
  /\ typed_text (self (snd (process_hand sink h w)))
     = Buffer.apply_key_event (typed_text (self w)) k.
Proof.
  intros Hk Htr Htouch Hlate. apply ltb_true in Htouch.
  assert (E : process_hand sink h w
              = type_key sink (clock h) k (snd (set_current_key (Some k) w))).
  { unfold process_hand, is_finger_touching_thumb, bind, get_self, ret. simpl.
    rewrite Htouch, Hk. simpl. now rewrite Htr. }
  rewrite E, type_key_fires by exact Hlate. split; reflexivity.
Qed.

Lemma spaced_snoc delay l p :
  spaced delay l ->
  (forall q, In q l -> (delay < when p - when q)%Q) ->
  spaced delay (l ++ [p]).
Proof.
  intros Hs Hb i j pi pj Hij Hi Hj.
  assert (Hjlen : (j < List.length (l ++ [p]))%nat)
    by (apply nth_error_Some; congruence).
  rewrite length_app in Hjlen. simpl in Hjlen.
  destruct (Nat.lt_ge_cases j (List.length l)) as [Hlt | Hge].
  - rewrite nth_error_app1 in Hi, Hj by lia. exact (Hs i j pi pj Hij Hi Hj).
  - assert (j = List.length l) by lia. subst j.
    rewrite nth_error_app2 in Hj by lia. rewrite Nat.sub_diag in Hj.
    simpl in Hj. injection Hj as <-.
    rewrite nth_error_app1 in Hi by lia.
    apply Hb. exact (nth_error_In l i Hi).
Qed.

Lemma debounced_current_key delay k w :
  debounced delay w -> debounced delay (snd (set_current_key k w)).
Proof. unfold debounced, covered. simpl. tauto. Qed.

(** Every call of [type_key] keeps the sink calls spaced. *)
Lemma debounced_type_key sink delay t key w :
  (0 <= delay)%Q ->
  debounced delay w -> debounced delay (snd (type_key sink t key w)).
Proof.
  intros Hpos (Hd & Hs & Hc).
  destruct (Qlt_le_dec (key_press_delay (self w)) (t - last_key_time (self w)))
    as [H | H].
  - rewrite (type_key_fires sink t key w H). unfold debounced, covered. simpl.
    split; [exact Hd|]. rewrite Hd in H. split.
    + apply spaced_snoc; [exact Hs|]. intros q Hq. simpl.
      specialize (Hc q Hq). lra.
    + intros p Hp. apply in_app_or in Hp. destruct Hp as [Hp | [<- | []]].
      * specialize (Hc p Hp). lra.
      * simpl. lra.
  - rewrite (type_key_blocked sink t key w H). now split.
Qed.

(** A sample that reaches the sink is the only kind that changes the
    text. *)
Lemma text_changes_only_with_event sink h w :
  presses (snd (process_hand sink h w)) = presses w ->
  typed_text (self (snd (process_hand sink h w))) = typed_text (self w).
Proof.
  destruct (process_hand_cases sink h w) as [k [E | [key E]]]; rewrite E.
  - reflexivity.
  - set (w1 := snd (set_current_key k w)).
    destruct (Qlt_le_dec (key_press_delay (self w1)) (clock h - last_key_time (self w1)))
      as [H | H].
    + rewrite (type_key_fires sink (clock h) key w1 H). simpl.
      intros Hp. apply (f_equal (@List.length Press)) in Hp.
      rewrite length_app in Hp. simpl in Hp. lia.
    + rewrite (type_key_blocked sink (clock h) key w1 H). reflexivity.
Qed.

Lemma simple_demo_appends (d : SimpleDemo.t) (h : Hand) (k : string) :
  SimpleDemo.get_key_at_position d (index_pos h) = Some k ->
  SimpleDemo.is_touching d h = true ->
  SimpleDemo.typed_text (SimpleDemo.process_hand d h)
  = SimpleDemo.typed_text d ++ k.
Proof.
  intros Hk Ht. unfold SimpleDemo.process_hand. rewrite Hk, Ht. simpl.
  destruct (str_truthy k) eqn:E; [reflexivity|].
  apply truthy_nonempty in E. subst k. now rewrite append_empty.
Qed.

(** C1 (amended). After a key event has fired at clock reading [t0],
    no further key event fires and the text buffer is not changed by any
    number of samples whose clock readings are at most [key_press_delay]
    later than [t0], wherever the finger is and so also while the pinch
    stays closed and the hovered key changes.  No pressed state is kept:
    the next sample with the pinch closed over a key that comes later
    than [key_press_delay] after [t0] fires that key. *)
Theorem held_pinch_is_silent_within_delay sink t0 key w0 frames :
  (key_press_delay (self w0) < t0 - last_key_time (self w0))%Q ->
  (forall f h, In f frames -> In h f ->
               (clock h - t0 <= key_press_delay (self w0))%Q) ->
  (fst (run sink frames (snd (type_key sink t0 key w0))) = Ok tt
   /\ presses (snd (run sink frames (snd (type_key sink t0 key w0))))
      = presses (snd (type_key sink t0 key w0))
   /\ typed_text (self (snd (run sink frames (snd (type_key sink t0 key w0)))))
      = typed_text (self (snd (type_key sink t0 key w0))))
  /\ (forall h k,
        get_key_at_position (layout (self w0))
          (fst (index_pos h)) (snd (index_pos h)) = Some k ->
        str_truthy k = true ->
        (thumb_index_distance h < touch_threshold (self w0))%Q ->
        (key_press_delay (self w0) < clock h - t0)%Q ->
        presses
          (snd (process_hand sink h
                  (snd (run sink frames (snd (type_key sink t0 key w0))))))
        = (presses (snd (type_key sink t0 key w0))
           ++ [ {| when := clock h; pressed_key := press_arg k |} ])%list
        /\ typed_text
             (self (snd (process_hand sink h
                           (snd (run sink frames (snd (type_key sink t0 key w0)))))))
           = Buffer.apply_key_event
               (typed_text (self (snd (type_key sink t0 key w0)))) k).
Proof.
  intros Hfire Hclocks.
  set (w1 := snd (type_key sink t0 key w0)).
  assert (E1 : self w1
               = {| layout := layout (self w0);
                    touch_threshold := touch_threshold (self w0);
                    last_key_time := t0;
                    key_press_delay := key_press_delay (self w0);
                    typed_text := Buffer.apply_key_event (typed_text (self w0)) key;
                    current_key := current_key (self w0) |})
    by (unfold w1; now rewrite (type_key_fires sink t0 key w0 Hfire)).
  destruct (run_preserves sink
              (fun t => (t - last_key_time (self w1) <= key_press_delay (self w1))%Q)
              (quiet w1)
              (quiet_current_key w1)
              (fun t k w => quiet_type_key sink w1 t k w)
              frames w1) as (Hok & Hp & Ht & Hl & Hd & Hg & Hth).
  - intros f h Hf Hh. rewrite E1. simpl. exact (Hclocks f h Hf Hh).
  - apply quiet_refl.
  - split; [split; [exact Hok | split; [exact Hp | exact Ht]]|].
    intros h k Hk Htr Htouch Hlate.
    rewrite <- Hp, <- Ht. apply process_hand_fires.
    + rewrite Hg, E1. exact Hk.
    + exact Htr.
    + rewrite Hth, E1. exact Htouch.
    + rewrite Hl, Hd, E1. exact Hlate.
Qed.

Lemma held_pinch_is_silent_within_delay_witness :
  (key_press_delay (self fresh_world)
   < 1 - last_key_time (self fresh_world))%Q
  /\ (forall f h,
        In f [[Samples.pinch_at 150 450 (5 # 4)]; [Samples.pinch_at 220 450 (3 # 2)]] ->
        In h f ->
        (clock h - 1 <= key_press_delay (self fresh_world))%Q)
  /\ typed_text
       (self
          (snd
             (run Samples.working_sink
                [[Samples.pinch_at 150 450 (5 # 4)]; [Samples.pinch_at 220 450 (3 # 2)]]
                (snd (type_key Samples.working_sink 1 "Q" fresh_world)))))
     = "Q".
Proof.
  assert (Hfire : (key_press_delay (self fresh_world)
                   < 1 - last_key_time (self fresh_world))%Q)
    by reflexivity.
  assert (Hclocks :
            forall f h,
              In f [[Samples.pinch_at 150 450 (5 # 4)];
                    [Samples.pinch_at 220 450 (3 # 2)]] ->
              In h f ->
              (clock h - 1 <= key_press_delay (self fresh_world))%Q).
  { intros f h [<- | [<- | []]] [<- | []]; vm_compute; discriminate. }
  split; [exact Hfire|]. split; [exact Hclocks|].
  destruct (held_pinch_is_silent_within_delay Samples.working_sink 1 "Q"
              fresh_world _ Hfire Hclocks) as ((_ & _ & Ht) & _).
  rewrite Ht. reflexivity.
Defined.

(** C1, as stated, fails: with the pinch held closed (10 pixels, below
    the threshold of 30) over [Q] and then over [W], samples one second
    apart fire one key event each. *)
Lemma held_pinch_fires_again_after_delay :
  (forall h,
      In h [Samples.pinch_at 150 450 1; Samples.pinch_at 150 450 2;
            Samples.pinch_at 220 450 3] ->
      (thumb_index_distance h < touch_threshold fresh)%Q)
  /\ typed_text
       (self (snd (run Samples.working_sink
                     [[Samples.pinch_at 150 450 1]] fresh_world)))
     = "Q"
  /\ typed_text
       (self (snd (run Samples.working_sink
                     [[Samples.pinch_at 150 450 1]; [Samples.pinch_at 150 450 2];
                      [Samples.pinch_at 220 450 3]] fresh_world)))
     = "QQW"
  /\ List.length
       (presses (snd (run Samples.working_sink
                        [[Samples.pinch_at 150 450 1]; [Samples.pinch_at 150 450 2];
                         [Samples.pinch_at 220 450 3]] fresh_world)))
     = 3%nat.
Proof.
  split; [intros h [<- | [<- | [<- | []]]]; reflexivity|].
  split; [|split]; vm_compute; reflexivity.
Qed.

(** C4 (amended). In every run of the gesture keyboard of
    [virtual_keyboard.py] whose [key_press_delay] is not negative, any
    closed time window of length [key_press_delay] holds at most one
    emitted key event, however many samples arrive, and a sample that
    emits no event leaves the text buffer as it was.  The loop of
    [simple_demo.py] has no debounce: every sample with a closed pinch
    over a key appends the key. *)
Theorem one_event_per_debounce_window sink frames w a i j pi pj :
  (0 <= key_press_delay (self w))%Q ->
  presses w = [] ->
  nth_error (presses (snd (run sink frames w))) i = Some pi ->
  nth_error (presses (snd (run sink frames w))) j = Some pj ->
  (a <= when pi)%Q -> (when pi <= a + key_press_delay (self w))%Q ->
  (a <= when pj)%Q -> (when pj <= a + key_press_delay (self w))%Q ->
  i = j
  /\ (forall h w',
        presses (snd (process_hand sink h w')) = presses w' ->
        typed_text (self (snd (process_hand sink h w'))) = typed_text (self w'))
  /\ (forall (d : SimpleDemo.t) (h : Hand) (k : string),
        SimpleDemo.get_key_at_position d (index_pos h) = Some k ->
        SimpleDemo.is_touching d h = true ->
        SimpleDemo.typed_text (SimpleDemo.process_hand d h)
        = SimpleDemo.typed_text d ++ k).
Proof.
  intros Hpos Hempty Hi Hj Hai Hib Haj Hjb.
  split; [|split; [apply text_changes_only_with_event
                  | apply simple_demo_appends]].
  destruct (run_preserves sink (fun _ => True)
              (debounced (key_press_delay (self w)))
              (debounced_current_key (key_press_delay (self w)))
              (fun t k w' _ =>
                 debounced_type_key sink (key_press_delay (self w)) t k w' Hpos)
              frames w) as (_ & _ & Hs & _).
  - intros; exact I.
  - split; [reflexivity|]. split.
    + rewrite Hempty. intros [|i'] j' ? ? _ H; discriminate.
    + unfold covered. rewrite Hempty. intros p [].
  - destruct (Nat.lt_trichotomy i j) as [Hlt | [Heq | Hgt]]; [|exact Heq|].
    + pose proof (Hs i j pi pj Hlt Hi Hj). lra.
    + pose proof (Hs j i pj pi Hgt Hj Hi). lra.
Qed.

Lemma one_event_per_debounce_window_witness :
  (0 <= key_press_delay (self fresh_world))%Q
  /\ presses fresh_world = []
  /\ nth_error
       (presses (snd (run Samples.working_sink
                        [[Samples.pinch_at 150 450 1];
                         [Samples.pinch_at 150 450 (6 # 5)];
                         [Samples.pinch_at 150 450 2]]
                        fresh_world))) 0
     = Some {| when := 1; pressed_key := "q" |}
  /\ (1 <= 1 <= 1 + key_press_delay (self fresh_world))%Q
  /\ 0%nat = 0%nat.
Proof.
  assert (Hpos : (0 <= key_press_delay (self fresh_world))%Q)
    by (vm_compute; discriminate).
  assert (Hn : nth_error
                 (presses (snd (run Samples.working_sink
                                  [[Samples.pinch_at 150 450 1];
                                   [Samples.pinch_at 150 450 (6 # 5)];
                                   [Samples.pinch_at 150 450 2]]
                                  fresh_world))) 0
               = Some {| when := 1; pressed_key := "q" |})
    by (vm_compute; reflexivity).
  assert (Hlo : (1 <= when {| when := 1; pressed_key := "q" |})%Q)
    by (vm_compute; discriminate).
  assert (Hhi : (when {| when := 1; pressed_key := "q" |}
                 <= 1 + key_press_delay (self fresh_world))%Q)
    by (vm_compute; discriminate).
  split; [exact Hpos|]. split; [reflexivity|]. split; [exact Hn|].
  split; [split; [exact Hlo | exact Hhi]|].
  exact (proj1 (one_event_per_debounce_window Samples.working_sink _
                  fresh_world 1 0 0 _ _
                  Hpos eq_refl Hn Hn Hlo Hhi Hlo Hhi)).
Defined.

(** C4, as stated, fails for the gesture loop of [simple_demo.py]: two
    samples a tenth of a second apart, the pinch closed over [A], append
    [A] twice. *)
Lemma simple_demo_repeats_within_window :
  (clock (Samples.pinch_at 150 450 (11 # 10)) - clock (Samples.pinch_at 150 450 1)
   <= 1 # 2)%Q
  /\ SimpleDemo.typed_text
       (SimpleDemo.run SimpleDemo.fresh
          [[Samples.pinch_at 150 450 1]; [Samples.pinch_at 150 450 (11 # 10)]])
     = "AA".
Proof. split; [vm_compute; discriminate | vm_compute; reflexivity]. Qed.

Example closures_apart :
  typed_text
    (self (snd (run Samples.working_sink
                  [[Samples.pinch_at 430 590 1]; [Samples.pinch_at 430 590 (6 # 5)];
                   [Samples.pinch_at 430 590 (8 # 5)];
                   [Samples.pinch_at 430 590 (9 # 5)]]
                  fresh_world)))
  = "BB".
Proof. vm_compute. reflexivity. Qed.

End RunFacts.

(** ** Construction of the keyboard *)

Module InitFacts.
Import Py Grid.



End InitFacts.

(** ** More on the key grid: disjoint slots, bounds, and the overlay *)

Module GridMore.
Import Py Grid Overlay GridFacts.

(** With a positive margin and key sizes that are not negative, the
    closed rectangles of two different slots share no point. *)
Lemma slots_disjoint g x y r c r' c' :
  0 <= key_width g -> 0 <= key_height g -> 0 < key_margin g ->
  contains g x y r c -> contains g x y r' c' -> r = r' /\ c = c'.
Proof.
  unfold contains, key_x, key_y.
  intros Hw Hh Hm [[Hx1 Hx2] [Hy1 Hy2]] [[Hx1' Hx2'] [Hy1' Hy2']].
  split.
  - destruct (Nat.lt_trichotomy r r') as [Hlt | [Heq | Hgt]]; [|exact Heq|];
      exfalso; nia.
  - destruct (Nat.lt_trichotomy c c') as [Hlt | [Heq | Hgt]]; [|exact Heq|];
      exfalso; nia.
Qed.

Lemma resolved_key_is_hit g x y k :
  get_key_at_position g x y = Some k ->
  exists r c, key_at g r c = Some k /\ contains g x y r c.
Proof.
  unfold get_key_at_position. intros H. apply scan_rows_some in H.
  destruct H as (i & j & row & Hi & Hj & Hc & _).
  exists i, j. split; [apply key_at_some; now exists row | exact Hc].
Qed.

(** X1. On a grid with a positive margin and key sizes that are not
    negative every point lies in at most one key rectangle, so
    [get_key_at_position] returns [k] exactly when the rectangle of some
    key labelled [k] contains the point: the order of the scan does not
    matter. *)
Theorem resolves_to_the_key_containing_the_point g x y k :
  0 <= key_width g -> 0 <= key_height g -> 0 < key_margin g ->
  (get_key_at_position g x y = Some k <->
   exists r c, key_at g r c = Some k /\ contains g x y r c).
Proof.
  intros Hw Hh Hm. split; [apply resolved_key_is_hit|].
  intros (r & c & Hk & Hc). apply key_at_some in Hk.
  destruct Hk as (row & Hr & Hcol).
  unfold get_key_at_position. apply scan_rows_some.
  exists r, c, row. split; [exact Hr|]. split; [exact Hcol|].
  split; [exact Hc|].
  intros r' c' row' Hb _ _ Hc'. simpl in Hc'.
  destruct (slots_disjoint g x y r c r' c' Hw Hh Hm Hc Hc') as [-> ->].
  destruct Hb as [Hb | [_ Hb]]; lia.
Qed.

Lemma resolves_to_the_key_containing_the_point_witness :
  0 <= key_width default_layout
  /\ 0 <= key_height default_layout
  /\ 0 < key_margin default_layout
  /\ (get_key_at_position default_layout 300 540 = Some "D" <->
      exists r c, key_at default_layout r c = Some "D"
                  /\ contains default_layout 300 540 r c).
Proof.
  assert (Hw : 0 <= key_width default_layout) by (simpl; lia).
  assert (Hh : 0 <= key_height default_layout) by (simpl; lia).
  assert (Hm : 0 < key_margin default_layout) by (simpl; lia).
  split; [exact Hw|]. split; [exact Hh|]. split; [exact Hm|].
  exact (resolves_to_the_key_containing_the_point default_layout 300 540 "D"
           Hw Hh Hm).
Defined.

(** X2. A point to the left of or above the keyboard origin is on no
    key, provided a key and its margin together are not of negative
    size. *)
Theorem left_of_or_above_the_origin_is_no_key g x y :
  0 <= key_width g + key_margin g ->
  0 <= key_height g + key_margin g ->
  x < keyboard_start_x g \/ y < keyboard_start_y g ->
  get_key_at_position g x y = None.
Proof.
  intros Hw Hh Hout. unfold get_key_at_position. apply scan_rows_none.
  intros i j row _ _ [[Hx _] [Hy _]]. unfold key_x, key_y in *. simpl in *.
  destruct Hout; nia.
Qed.

Lemma left_of_or_above_the_origin_is_no_key_witness :
  0 <= key_width default_layout + key_margin default_layout
  /\ 0 <= key_height default_layout + key_margin default_layout
  /\ (149 < keyboard_start_x default_layout \/ 600 < keyboard_start_y default_layout)
  /\ get_key_at_position default_layout 149 600 = None.
Proof.
  assert (Hw : 0 <= key_width default_layout + key_margin default_layout)
    by (simpl; lia).
  assert (Hh : 0 <= key_height default_layout + key_margin default_layout)
    by (simpl; lia).
  assert (Ho : 149 < keyboard_start_x default_layout
               \/ 600 < keyboard_start_y default_layout) by (left; simpl; lia).
  split; [exact Hw|]. split; [exact Hh|]. split; [exact Ho|].
  exact (left_of_or_above_the_origin_is_no_key default_layout 149 600 Hw Hh Ho).
Defined.

Lemma find_append {A : Type} (f : A -> bool) (l1 l2 : list A) :
  find f (l1 ++ l2)
  = match find f l1 with
    | Some a => Some a
    | None => find f l2
    end.
Proof.
  induction l1 as [|a l1 IH]; simpl; [reflexivity|].
  destruct (f a); [reflexivity | exact IH].
Qed.

Lemma draw_row_find g ck x y r row : forall c0,
  option_map box_key (find (paints x y) (draw_row g ck r c0 row))
  = scan_row g x y r c0 row.
Proof.
  induction row as [|key rest IH]; intros c0; simpl; [reflexivity|].
  change (paints x y _) with (hit g x y r c0).
  destruct (hit g x y r c0); [reflexivity | apply IH].
Qed.

Lemma draw_rows_find g ck x y rows : forall r0,
  option_map box_key (find (paints x y) (draw_rows g ck r0 rows))
  = scan_rows g x y r0 rows.
Proof.
  induction rows as [|row rest IH]; intros r0; simpl; [reflexivity|].
  rewrite find_append, <- (draw_row_find g ck x y r0 row 0%nat).
  destruct (find (paints x y) (draw_row g ck r0 0 row)); simpl;
    [reflexivity | apply IH].
Qed.

Lemma draw_row_keys g ck r row : forall c0,
  map box_key (draw_row g ck r c0 row) = row.
Proof.
  induction row as [|key rest IH]; intros c0; simpl;
    [reflexivity | now rewrite IH].
Qed.

Lemma draw_rows_keys g ck rows : forall r0,
  map box_key (draw_rows g ck r0 rows) = List.concat rows.
Proof.
  induction rows as [|row rest IH]; intros r0; simpl; [reflexivity|].
  now rewrite map_app, draw_row_keys, IH.
Qed.

Lemma draw_row_active g ck r row : forall c0 b,
  In b (draw_row g ck r c0 row) -> box_active b = is_current (box_key b) ck.
Proof.
  induction row as [|key rest IH]; intros c0 b; simpl; [intros []|].
  intros [<- | Hin]; [reflexivity | exact (IH _ b Hin)].
Qed.

Lemma draw_rows_active g ck rows : forall r0 b,
  In b (draw_rows g ck r0 rows) -> box_active b = is_current (box_key b) ck.
Proof.
  induction rows as [|row rest IH]; intros r0 b; simpl; [intros []|].
  intros Hin. apply in_app_or in Hin. destruct Hin as [Hin | Hin].
  - exact (draw_row_active g ck r0 row 0%nat b Hin).
  - exact (IH _ b Hin).
Qed.

Lemma nodup_map_injective {A B : Type} (f : A -> B) (l : list A) (a b : A) :
  NoDup (map f l) -> In a l -> In b l -> f a = f b -> a = b.
Proof.
  induction l as [|c l IH]; simpl; [intros _ []|].
  intros Hnd Ha Hb Hf. inversion Hnd as [|? ? Hnotin Hnd']; subst.
  destruct Ha as [-> | Ha], Hb as [-> | Hb].
  - reflexivity.
  - exfalso. apply Hnotin. rewrite Hf. now apply in_map.
  - exfalso. apply Hnotin. rewrite <- Hf. now apply in_map.
  - now apply IH.
Qed.

(** X3. What is drawn is what is hit: the key [get_key_at_position]
    returns for a point is the key of the first rectangle
    [draw_keyboard] paints over that point, and it returns [None] exactly
    when no painted rectangle covers the point. *)
Theorem hit_test_agrees_with_drawn_rectangles g current_key x y :
  get_key_at_position g x y
  = option_map box_key (find (paints x y) (draw_keyboard g current_key)).
Proof.
  unfold get_key_at_position, draw_keyboard.
  symmetry. apply draw_rows_find.
Qed.

(** X4. When no label occurs twice in the layout and the finger hovers a
    key, [draw_keyboard] paints exactly one rectangle in the active
    colour, and that rectangle is under the finger. *)
Theorem highlighted_key_is_under_the_finger g x y k :
  NoDup (List.concat (keyboard_layout g)) ->
  get_key_at_position g x y = Some k ->
  exists b,
    In b (draw_keyboard g (Some k))
    /\ box_key b = k
    /\ paints x y b = true
    /\ forall b',
         In b' (draw_keyboard g (Some k)) ->
         (box_active b' = true <-> b' = b).
Proof.
  intros Hnd Hk. unfold get_key_at_position in Hk.
  rewrite <- (draw_rows_find g (Some k) x y (keyboard_layout g) 0%nat) in Hk.
  fold (draw_keyboard g (Some k)) in Hk.
  destruct (find (paints x y) (draw_keyboard g (Some k))) as [b|] eqn:Hf;
    [|discriminate].
  simpl in Hk. injection Hk as Hkey.
  apply find_some in Hf. destruct Hf as [Hin Hp].
  exists b. split; [exact Hin|]. split; [exact Hkey|]. split; [exact Hp|].
  intros b' Hin'.
  rewrite (draw_rows_active g (Some k) _ 0%nat b' Hin'). simpl. split.
  - intros He. apply String.eqb_eq in He.
    apply (nodup_map_injective box_key (draw_keyboard g (Some k))); try assumption.
    + unfold draw_keyboard. now rewrite draw_rows_keys.
    + congruence.
  - intros ->. rewrite Hkey. apply String.eqb_refl.
Qed.

Lemma highlighted_key_is_under_the_finger_witness :
  NoDup (List.concat (keyboard_layout default_layout))
  /\ get_key_at_position default_layout 300 540 = Some "D"
  /\ exists b,
       In b (draw_keyboard default_layout (Some "D"))
       /\ box_key b = "D"
       /\ paints 300 540 b = true
       /\ forall b',
            In b' (draw_keyboard default_layout (Some "D")) ->
            (box_active b' = true <-> b' = b).
Proof.
  assert (Hnd : NoDup (List.concat (keyboard_layout default_layout))).
  { apply (NoDup_count_occ' string_dec). intros k Hin.
    simpl in Hin.
    repeat (destruct Hin as [<- | Hin]; [vm_compute; reflexivity|]).
    destruct Hin. }
  assert (Hk : get_key_at_position default_layout 300 540 = Some "D")
    by reflexivity.
  split; [exact Hnd|]. split; [exact Hk|].
  exact (highlighted_key_is_under_the_finger default_layout 300 540 "D" Hnd Hk).
Defined.

End GridMore.

(** ** More on the gesture loop *)

Module RunMore.
Import Py Grid Tracker VirtualKeyboard Trace Streams TypeKeyFacts RunFacts.

Lemma process_hand_completes sink h w : fst (process_hand sink h w) = Ok tt.
Proof.
  destruct (process_hand_cases sink h w) as [k [E | [key E]]]; rewrite E;
    [reflexivity | apply type_key_completes].
Qed.

Lemma hands_as_fold sink hands : forall w,
  for_each hands (process_hand sink) w = (Ok tt, fold_left (step sink) hands w).
Proof.
  induction hands as [|h rest IH]; intros w; simpl; [reflexivity|].
  unfold bind. pose proof (process_hand_completes sink h w) as Hok.
  unfold step at 2.
  destruct (process_hand sink h w) as [[[]|e] w1]; simpl in *;
    [apply IH | discriminate].
Qed.

Lemma process_frame_as_fold sink hands w :
  process_frame sink hands w = (Ok tt, frame_step sink w hands).
Proof.
  unfold process_frame, frame_step, bind. simpl. apply hands_as_fold.
Qed.

Lemma run_as_fold sink frames : forall w,
  run sink frames w = (Ok tt, fold_left (frame_step sink) frames w).
Proof.
  unfold run.
  induction frames as [|f rest IH]; intros w; simpl; [reflexivity|].
  unfold bind. rewrite process_frame_as_fold. apply IH.
Qed.

(** The loop body in terms of the key the sample asks for. *)
Lemma process_hand_spec sink h w :
  process_hand sink h w
  = match pinched_key (layout (self w)) (touch_threshold (self w)) h with
    | Some k =>
        type_key sink (clock h) k
          (snd (set_current_key
                  (get_key_at_position (layout (self w))
                     (fst (index_pos h)) (snd (index_pos h))) w))
    | None =>
        (Ok tt,
         snd (set_current_key
                (get_key_at_position (layout (self w))
                   (fst (index_pos h)) (snd (index_pos h))) w))
    end.
Proof.
  unfold process_hand, pinched_key, is_finger_touching_thumb, bind, get_self, ret.
  simpl.
  destruct (ltb (thumb_index_distance h) (touch_threshold (self w)));
    [|reflexivity].
  destruct (get_key_at_position (layout (self w))
              (fst (index_pos h)) (snd (index_pos h))) as [k|]; [|reflexivity].
  simpl. destruct (str_truthy k); reflexivity.
Qed.

(** What one sample does to every attribute and to the sink. *)
Lemma step_effect sink h w :
  layout (self (step sink w h)) = layout (self w)
  /\ touch_threshold (self (step sink w h)) = touch_threshold (self w)
  /\ key_press_delay (self (step sink w h)) = key_press_delay (self w)
  /\ current_key (self (step sink w h))
     = get_key_at_position (layout (self w)) (fst (index_pos h)) (snd (index_pos h))
  /\ ((exists k,
         pinched_key (layout (self w)) (touch_threshold (self w)) h = Some k
         /\ (key_press_delay (self w) < clock h - last_key_time (self w))%Q
         /\ typed_text (self (step sink w h))
            = Buffer.apply_key_event (typed_text (self w)) k
         /\ last_key_time (self (step sink w h)) = clock h
         /\ presses (step sink w h)
            = (presses w ++ [ {| when := clock h; pressed_key := press_arg k |} ])%list)
      \/ ((pinched_key (layout (self w)) (touch_threshold (self w)) h = None
           \/ (clock h - last_key_time (self w) <= key_press_delay (self w))%Q)
          /\ typed_text (self (step sink w h)) = typed_text (self w)
          /\ last_key_time (self (step sink w h)) = last_key_time (self w)
          /\ presses (step sink w h) = presses w)).
Proof.
  unfold step. rewrite process_hand_spec.
  set (w1 := snd (set_current_key _ w)).
  destruct (pinched_key (layout (self w)) (touch_threshold (self w)) h) as [k|].
  - destruct (Qlt_le_dec (key_press_delay (self w1)) (clock h - last_key_time (self w1)))
      as [H | H].
    + rewrite (type_key_fires sink (clock h) k w1 H). simpl.
      repeat (split; [reflexivity|]). left. exists k.
      split; [reflexivity|]. split; [exact H|]. repeat split.
    + rewrite (type_key_blocked sink (clock h) k w1 H). simpl.
      repeat (split; [reflexivity|]). right.
      split; [right; exact H|]. repeat split.
  - simpl. repeat (split; [reflexivity|]). right.
    split; [left; reflexivity|]. repeat split.
Qed.

Lemma type_key_keeps_configuration sink t key w :
  layout (self (snd (type_key sink t key w))) = layout (self w)
  /\ touch_threshold (self (snd (type_key sink t key w))) = touch_threshold (self w)
  /\ key_press_delay (self (snd (type_key sink t key w))) = key_press_delay (self w).
Proof.
  destruct (Qlt_le_dec (key_press_delay (self w)) (t - last_key_time (self w)))
    as [H | H].
  - rewrite (type_key_fires sink t key w H). repeat split.
  - rewrite (type_key_blocked sink t key w H). repeat split.
Qed.

(** X5. The run loop never raises, whatever the key-injection sink does
    on any of its calls, and it never changes the layout, the touch
    threshold or the debounce delay. *)
Theorem run_completes_and_keeps_configuration sink frames w :
  fst (run sink frames w) = Ok tt
  /\ layout (self (snd (run sink frames w))) = layout (self w)
  /\ touch_threshold (self (snd (run sink frames w))) = touch_threshold (self w)
  /\ key_press_delay (self (snd (run sink frames w))) = key_press_delay (self w).
Proof.
  apply (run_preserves sink (fun _ => True)
           (fun w' => layout (self w') = layout (self w)
                      /\ touch_threshold (self w') = touch_threshold (self w)
                      /\ key_press_delay (self w') = key_press_delay (self w))).
  - intros k w' H. exact H.
  - intros t key w' _ (H1 & H2 & H3).
    destruct (type_key_keeps_configuration sink t key w') as (E1 & E2 & E3).
    rewrite E1, E2, E3. now repeat split.
  - intros; exact I.
  - now repeat split.
Qed.

Lemma hands_extend_trace sink hands : forall w,
  exists extra,
    presses (fold_left (step sink) hands w) = (presses w ++ extra)%list
    /\ (List.length extra <= List.length hands)%nat.
Proof.
  induction hands as [|h rest IH]; intros w; simpl.
  - exists []. split; [now rewrite app_nil_r | simpl; lia].
  - destruct (IH (step sink w h)) as (extra & He & Hl).
    destruct (step_effect sink h w)
      as (_ & _ & _ & _ & [(k & _ & _ & _ & _ & Hp) | (_ & _ & _ & Hp)]).
    + exists ({| when := clock h; pressed_key := press_arg k |} :: extra).
      rewrite He, Hp, <- app_assoc. split; [reflexivity | simpl; lia].
    + exists extra. rewrite He, Hp. split; [reflexivity | simpl; lia].
Qed.

(** X6. Calls to the sink are only ever added at the end of the record,
    and a run makes at most one call per hand sample it processes. *)
Theorem at_most_one_event_per_sample sink frames w :
  exists extra,
    presses (snd (run sink frames w)) = (presses w ++ extra)%list
    /\ (List.length extra <= List.length (List.concat frames))%nat.
Proof.
  rewrite run_as_fold. simpl. revert w.
  induction frames as [|f rest IH]; intros w; simpl.
  - exists []. split; [now rewrite app_nil_r | simpl; lia].
  - destruct (IH (frame_step sink w f)) as (e2 & He2 & Hl2).
    destruct (hands_extend_trace sink f (snd (set_current_key None w)))
      as (e1 & He1 & Hl1).
    exists (e1 ++ e2)%list. rewrite He2. unfold frame_step. rewrite He1. simpl.
    rewrite <- app_assoc, !length_app. split; [reflexivity | lia].
Qed.

(** The time of the last call to the sink, [t] if there was none. *)
Lemma last_event_type_key sink (t0 : Q) t key w :
  last_key_time (self w)
  = match rev (presses w) with [] => t0 | p :: _ => when p end ->
  last_key_time (self (snd (type_key sink t key w)))
  = match rev (presses (snd (type_key sink t key w))) with
    | [] => t0
    | p :: _ => when p
    end.
Proof.
  intros H.
  destruct (Qlt_le_dec (key_press_delay (self w)) (t - last_key_time (self w)))
    as [Hf | Hb].
  - rewrite (type_key_fires sink t key w Hf). simpl.
    now rewrite rev_app_distr.
  - now rewrite (type_key_blocked sink t key w Hb).
Qed.

(** X7. In a run that starts with no call made to the sink,
    [last_key_time] is at every moment the clock reading of the most
    recent call, and still its initial value if no call was made:
    samples that are rejected do not move it. *)
Theorem last_key_time_is_time_of_last_event sink frames w :
  presses w = [] ->
  last_key_time (self (snd (run sink frames w)))
  = match rev (presses (snd (run sink frames w))) with
    | [] => last_key_time (self w)
    | p :: _ => when p
    end.
Proof.
  intros Hempty.
  apply (run_preserves sink (fun _ => True)
           (fun w' => last_key_time (self w')
                      = match rev (presses w') with
                        | [] => last_key_time (self w)
                        | p :: _ => when p
                        end)).
  - intros k w' H. exact H.
  - intros t key w' _ H. now apply last_event_type_key.
  - intros; exact I.
  - now rewrite Hempty.
Qed.

Lemma last_key_time_is_time_of_last_event_witness :
  presses fresh_world = []
  /\ last_key_time
       (self (snd (run Samples.broken_sink
                     [[Samples.pinch_at 150 450 1]; [Samples.pinch_at 150 450 (5 # 4)]]
                     fresh_world)))
     = 1%Q.
Proof.
  assert (H : presses fresh_world = []) by reflexivity.
  split; [exact H|].
  rewrite (last_key_time_is_time_of_last_event Samples.broken_sink _ fresh_world H).
  reflexivity.
Defined.

Lemma debounced_after_run sink frames w :
  (0 <= key_press_delay (self w))%Q ->
  presses w = [] ->
  spaced (key_press_delay (self w)) (presses (snd (run sink frames w))).
Proof.
  intros Hpos Hempty.
  destruct (run_preserves sink (fun _ => True)
              (debounced (key_press_delay (self w)))
              (debounced_current_key (key_press_delay (self w)))
              (fun t k w' _ =>
                 debounced_type_key sink (key_press_delay (self w)) t k w' Hpos)
              frames w) as (_ & _ & Hs & _).
  - intros; exact I.
  - split; [reflexivity|]. split.
    + rewrite Hempty. intros [|i'] j' ? ? _ H; discriminate.
    + unfold covered. rewrite Hempty. intros p [].
  - exact Hs.
Qed.

Lemma spaced_span delay l i : forall n pi pj,
  spaced delay l ->
  nth_error l i = Some pi ->
  nth_error l (i + n) = Some pj ->
  (inject_Z (Z.of_nat n) * delay <= when pj - when pi)%Q.
Proof.
  induction n as [|n IH]; intros pi pj Hs Hi Hj.
  - rewrite Nat.add_0_r in Hj. rewrite Hi in Hj. injection Hj as <-.
    change (inject_Z (Z.of_nat 0)) with 0%Q. lra.
  - assert (Hlen : (i + n < List.length l)%nat).
    { assert (i + S n < List.length l)%nat by (apply nth_error_Some; congruence).
      lia. }
    destruct (nth_error l (i + n)) as [pm|] eqn:Hm;
      [|apply nth_error_None in Hm; lia].
    pose proof (IH pi pm Hs Hi eq_refl) as H1.
    pose proof (Hs (i + n)%nat (i + S n)%nat pm pj ltac:(lia) Hm Hj) as H2.
    assert (E : (inject_Z (Z.of_nat (S n)) == inject_Z (Z.of_nat n) + 1)%Q).
    { rewrite Nat2Z.inj_succ. unfold Z.succ. rewrite inject_Z_plus. reflexivity. }
    rewrite E. lra.
Qed.

(** X8. Typing is rate limited: in a run that starts with no call made
    to the sink and has a debounce delay that is not negative, the key
    event that comes [n] events after another one comes more than
    [n * key_press_delay] seconds later (at least that for [n = 0]). *)
Theorem events_take_time sink frames w i n pi pj :
  (0 <= key_press_delay (self w))%Q ->
  presses w = [] ->
  nth_error (presses (snd (run sink frames w))) i = Some pi ->
  nth_error (presses (snd (run sink frames w))) (i + n) = Some pj ->
  (inject_Z (Z.of_nat n) * key_press_delay (self w) <= when pj - when pi)%Q
  /\ ((0 < n)%nat ->
      (inject_Z (Z.of_nat n) * key_press_delay (self w) < when pj - when pi)%Q).
Proof.
  intros Hpos Hempty Hi Hj.
  pose proof (debounced_after_run sink frames w Hpos Hempty) as Hs.
  split; [exact (spaced_span _ _ i n pi pj Hs Hi Hj)|].
  intros Hn. destruct n as [|n]; [lia|].
  assert (Hlen : (i + n < List.length (presses (snd (run sink frames w))))%nat).
  { assert (i + S n < List.length (presses (snd (run sink frames w))))%nat
      by (apply nth_error_Some; congruence).
    lia. }
  destruct (nth_error (presses (snd (run sink frames w))) (i + n)) as [pm|] eqn:Hm;
    [|apply nth_error_None in Hm; lia].
  pose proof (spaced_span _ _ i n pi pm Hs Hi Hm) as H1.
  pose proof (Hs (i + n)%nat (i + S n)%nat pm pj ltac:(lia) Hm Hj) as H2.
  assert (E : (inject_Z (Z.of_nat (S n)) == inject_Z (Z.of_nat n) + 1)%Q).
  { rewrite Nat2Z.inj_succ. unfold Z.succ. rewrite inject_Z_plus. reflexivity. }
  rewrite E. lra.
Qed.

Lemma events_take_time_witness :
  (0 <= key_press_delay (self fresh_world))%Q
  /\ presses fresh_world = []
  /\ nth_error
       (presses (snd (run Samples.working_sink
                        [[Samples.pinch_at 150 450 1]; [Samples.pinch_at 150 450 2];
                         [Samples.pinch_at 150 450 3]] fresh_world))) 0
     = Some {| when := 1; pressed_key := "q" |}
  /\ nth_error
       (presses (snd (run Samples.working_sink
                        [[Samples.pinch_at 150 450 1]; [Samples.pinch_at 150 450 2];
                         [Samples.pinch_at 150 450 3]] fresh_world))) (0 + 2)
     = Some {| when := 3; pressed_key := "q" |}
  /\ (inject_Z (Z.of_nat 2) * key_press_delay (self fresh_world)
      <= when {| when := 3; pressed_key := "q" |}
         - when {| when := 1; pressed_key := "q" |})%Q.
Proof.
  assert (Hpos : (0 <= key_press_delay (self fresh_world))%Q)
    by (vm_compute; discriminate).
  assert (Hi : nth_error
                 (presses (snd (run Samples.working_sink
                                  [[Samples.pinch_at 150 450 1];
                                   [Samples.pinch_at 150 450 2];
                                   [Samples.pinch_at 150 450 3]] fresh_world))) 0
               = Some {| when := 1; pressed_key := "q" |})
    by (vm_compute; reflexivity).
  assert (Hj : nth_error
                 (presses (snd (run Samples.working_sink
                                  [[Samples.pinch_at 150 450 1];
                                   [Samples.pinch_at 150 450 2];
                                   [Samples.pinch_at 150 450 3]] fresh_world))) (0 + 2)
               = Some {| when := 3; pressed_key := "q" |})
    by (vm_compute; reflexivity).
  split; [exact Hpos|]. split; [reflexivity|]. split; [exact Hi|].
  split; [exact Hj|].
  exact (proj1 (events_take_time Samples.working_sink _ fresh_world 0 2 _ _
                  Hpos eq_refl Hi Hj)).
Defined.

Lemma apart_app delay l1 : forall last l2,
  apart delay last (l1 ++ l2)
  <-> apart delay last l1 /\ apart delay (final_clock last l1) l2.
Proof.
  induction l1 as [|h l1 IH]; intros last l2; simpl.
  - unfold final_clock. simpl. tauto.
  - rewrite IH. unfold final_clock. simpl. tauto.
Qed.

(** Samples that are far enough apart are all typed. *)
Lemma hands_apart_typed sink hands : forall w bound,
  (0 <= key_press_delay (self w))%Q ->
  (last_key_time (self w) <= bound)%Q ->
  apart (key_press_delay (self w)) bound hands ->
  typed_text (self (fold_left (step sink) hands w))
  = fold_left Buffer.apply_key_event
      (pinched_keys (layout (self w)) (touch_threshold (self w)) hands)
      (typed_text (self w))
  /\ map pressed_key (presses (fold_left (step sink) hands w))
     = (map pressed_key (presses w)
        ++ map press_arg
             (pinched_keys (layout (self w)) (touch_threshold (self w)) hands))%list
  /\ layout (self (fold_left (step sink) hands w)) = layout (self w)
  /\ touch_threshold (self (fold_left (step sink) hands w)) = touch_threshold (self w)
  /\ key_press_delay (self (fold_left (step sink) hands w)) = key_press_delay (self w)
  /\ (last_key_time (self (fold_left (step sink) hands w))
      <= final_clock bound hands)%Q.
Proof.
  induction hands as [|h rest IH]; intros w bound Hpos Hlast Hap.
  - simpl. rewrite app_nil_r. repeat split. exact Hlast.
  - destruct Hap as [Hgap Hrest].
    destruct (step_effect sink h w) as (El & Et & Ed & _ & Hcase).
    assert (Hstep :
              typed_text (self (step sink w h))
              = fold_left Buffer.apply_key_event
                  (match pinched_key (layout (self w)) (touch_threshold (self w)) h with
                   | Some k => [k]
                   | None => []
                   end) (typed_text (self w))
              /\ map pressed_key (presses (step sink w h))
                 = (map pressed_key (presses w)
                    ++ map press_arg
                         (match pinched_key (layout (self w))
                                  (touch_threshold (self w)) h with
                          | Some k => [k]
                          | None => []
                          end))%list
              /\ (last_key_time (self (step sink w h)) <= clock h)%Q).
    { destruct Hcase as [(k & Hk & _ & Hty & Hla & Hpr)
                        | ([Hnone | Hrej] & Hty & Hla & Hpr)].
      - rewrite Hk, Hty, Hla, Hpr, map_app. simpl. repeat split. lra.
      - rewrite Hnone, Hty, Hla, Hpr. simpl. rewrite app_nil_r.
        repeat split. lra.
      - exfalso. lra. }
    destruct Hstep as (Hty & Hpr & Hla).
    destruct (IH (step sink w h) (clock h)) as (I1 & I2 & I3 & I4 & I5 & I6).
    + now rewrite Ed.
    + exact Hla.
    + now rewrite Ed.
    + change (fold_left (step sink) (h :: rest) w)
        with (fold_left (step sink) rest (step sink w h)).
      unfold pinched_keys in *. simpl flat_map. simpl final_clock.
      rewrite El, Et in I1, I2.
      rewrite fold_left_app, map_app, app_assoc, <- Hty, <- Hpr.
      split; [exact I1|]. split; [exact I2|].
      split; [now rewrite I3|]. split; [now rewrite I4|].
      split; [now rewrite I5|]. exact I6.
Qed.

Lemma frames_apart_typed sink frames : forall w bound,
  (0 <= key_press_delay (self w))%Q ->
  (last_key_time (self w) <= bound)%Q ->
  apart (key_press_delay (self w)) bound (List.concat frames) ->
  typed_text (self (fold_left (frame_step sink) frames w))
  = fold_left Buffer.apply_key_event
      (pinched_keys (layout (self w)) (touch_threshold (self w)) (List.concat frames))
      (typed_text (self w))
  /\ map pressed_key (presses (fold_left (frame_step sink) frames w))
     = (map pressed_key (presses w)
        ++ map press_arg
             (pinched_keys (layout (self w)) (touch_threshold (self w))
                (List.concat frames)))%list.
Proof.
  induction frames as [|f rest IH]; intros w bound Hpos Hle Hap.
  - simpl. now rewrite app_nil_r.
  - simpl List.concat in *. apply apart_app in Hap. destruct Hap as [Hf Hrest].
    simpl fold_left.
    assert (Hhands := hands_apart_typed sink f (snd (set_current_key None w))
                        bound Hpos Hle Hf).
    fold (frame_step sink w f) in Hhands. simpl in Hhands.
    destruct Hhands as (H1 & H2 & H3 & H4 & H5 & H6).
    assert (Hrest' : apart (key_press_delay (self (frame_step sink w f)))
                       (final_clock bound f) (List.concat rest))
      by now rewrite H5.
    assert (Hpos' : (0 <= key_press_delay (self (frame_step sink w f)))%Q)
      by now rewrite H5.
    destruct (IH (frame_step sink w f) (final_clock bound f) Hpos' H6 Hrest')
      as [J1 J2].
    rewrite H3, H4 in J1, J2. unfold pinched_keys in *.
    rewrite flat_map_app, fold_left_app, map_app, app_assoc, <- H1, <- H2.
    split; [exact J1 | exact J2].
Qed.

(** X9. When the debounce delay is not negative and every hand sample
    of a run comes more than [key_press_delay] after the sample before
    it (the first more than that after [last_key_time]), nothing is
    dropped: the text is the old text with the key event of every
    closed-pinch sample over a key applied in order, and the sink is
    called once for each of them. *)
Theorem gestures_far_apart_are_all_typed sink frames w :
  (0 <= key_press_delay (self w))%Q ->
  apart (key_press_delay (self w)) (last_key_time (self w)) (List.concat frames) ->
  typed_text (self (snd (run sink frames w)))
  = fold_left Buffer.apply_key_event
      (pinched_keys (layout (self w)) (touch_threshold (self w)) (List.concat frames))
      (typed_text (self w))
  /\ map pressed_key (presses (snd (run sink frames w)))
     = (map pressed_key (presses w)
        ++ map press_arg
             (pinched_keys (layout (self w)) (touch_threshold (self w))
                (List.concat frames)))%list.
Proof.
  intros Hpos Hap. rewrite run_as_fold. simpl.
  apply (frames_apart_typed sink frames w (last_key_time (self w)) Hpos);
    [lra | exact Hap].
Qed.

Lemma gestures_far_apart_are_all_typed_witness :
  (0 <= key_press_delay (self fresh_world))%Q
  /\ apart (key_press_delay (self fresh_world)) (last_key_time (self fresh_world))
       (List.concat [[Samples.pinch_at 360 520 1]; [Samples.pinch_at 500 450 2];
                     [Samples.pinch_at 10 10 3]; [Samples.pinch_at 150 660 4];
                     [Samples.pinch_at 220 660 5]])
  /\ typed_text
       (self (snd (run Samples.broken_sink
                     [[Samples.pinch_at 360 520 1]; [Samples.pinch_at 500 450 2];
                      [Samples.pinch_at 10 10 3]; [Samples.pinch_at 150 660 4];
                      [Samples.pinch_at 220 660 5]] fresh_world)))
     = "FY".
Proof.
  assert (Hpos : (0 <= key_press_delay (self fresh_world))%Q)
    by (vm_compute; discriminate).
  assert (Hap : apart (key_press_delay (self fresh_world))
                  (last_key_time (self fresh_world))
                  (List.concat [[Samples.pinch_at 360 520 1];
                                [Samples.pinch_at 500 450 2];
                                [Samples.pinch_at 10 10 3];
                                [Samples.pinch_at 150 660 4];
                                [Samples.pinch_at 220 660 5]]))
    by (simpl; repeat split).
  split; [exact Hpos|]. split; [exact Hap|].
  rewrite (proj1 (gestures_far_apart_are_all_typed Samples.broken_sink _
                    fresh_world Hpos Hap)).
  reflexivity.
Defined.

Lemma hands_keep_layout sink hands : forall w,
  layout (self (fold_left (step sink) hands w)) = layout (self w).
Proof.
  induction hands as [|h rest IH]; intros w; simpl; [reflexivity|].
  rewrite IH. now destruct (step_effect sink h w) as (El & _).
Qed.

(** X10. After a frame [current_key] is the key under the index finger
    of the last hand found in that frame, and [None] when no hand was
    found: what an earlier frame or an earlier hand hovered is never
    kept, and typing does not disturb it. *)
Theorem hover_is_key_under_last_hand sink hands w :
  fst (process_frame sink hands w) = Ok tt
  /\ current_key (self (snd (process_frame sink hands w)))
     = match rev hands with
       | [] => None
       | h :: _ =>
           get_key_at_position (layout (self w))
             (fst (index_pos h)) (snd (index_pos h))
       end.
Proof.
  rewrite process_frame_as_fold. split; [reflexivity|]. simpl. unfold frame_step.
  induction hands as [|h0 front _] using rev_ind; [reflexivity|].
  rewrite rev_app_distr, fold_left_app. cbn [fold_left rev app].
  destruct (step_effect sink h0
              (fold_left (step sink) front (snd (set_current_key None w))))
    as (_ & _ & _ & Hc & _).
  rewrite Hc, hands_keep_layout. reflexivity.
Qed.

Lemma lower_ascii_not_upper c : is_upper (lower_ascii c) = false.
Proof. destruct c as [[] [] [] [] [] [] [] []]; reflexivity. Qed.

Lemma lower_has_no_upper s : has_upper (lower s) = false.
Proof.
  induction s as [|c s IH]; simpl; [reflexivity|].
  now rewrite lower_ascii_not_upper, IH.
Qed.

Lemma press_arg_has_no_upper key : has_upper (press_arg key) = false.
Proof.
  unfold press_arg.
  destruct (key =? "SPACE")%string; [reflexivity|].
  destruct (key =? "BACK")%string; [reflexivity | apply lower_has_no_upper].
Qed.

(** X11. The key-injection sink is never asked to press a capital
    letter: if no argument recorded so far contains one of [A] to [Z],
    none does after a run, whatever the labels of the layout are. *)
Theorem sink_never_gets_a_capital_letter sink frames w :
  Forall (fun p => has_upper (pressed_key p) = false) (presses w) ->
  Forall (fun p => has_upper (pressed_key p) = false)
    (presses (snd (run sink frames w))).
Proof.
  intros H.
  apply (run_preserves sink (fun _ => True)
           (fun w' => Forall (fun p => has_upper (pressed_key p) = false)
                        (presses w'))).
  - intros k w' H'. exact H'.
  - intros t key w' _ H'.
    destruct (Qlt_le_dec (key_press_delay (self w')) (t - last_key_time (self w')))
      as [Hf | Hb].
    + rewrite (type_key_fires sink t key w' Hf). simpl.
      apply Forall_app. split; [exact H'|].
      constructor; [apply press_arg_has_no_upper | constructor].
    + now rewrite (type_key_blocked sink t key w' Hb).
  - intros; exact I.
  - exact H.
Qed.

Lemma sink_never_gets_a_capital_letter_witness :
  Forall (fun p => has_upper (pressed_key p) = false) (presses fresh_world)
  /\ map pressed_key
       (presses (snd (run Samples.working_sink
                        [[Samples.pinch_at 150 450 1]; [Samples.pinch_at 150 660 2];
                         [Samples.pinch_at 220 660 3]] fresh_world)))
     = ["q"; "space"; "backspace"]
  /\ Forall (fun p => has_upper (pressed_key p) = false)
       (presses (snd (run Samples.working_sink
                        [[Samples.pinch_at 150 450 1]; [Samples.pinch_at 150 660 2];
                         [Samples.pinch_at 220 660 3]] fresh_world))).
Proof.
  assert (H : Forall (fun p => has_upper (pressed_key p) = false)
                (presses fresh_world)) by constructor.
  split; [exact H|]. split; [vm_compute; reflexivity|].
  exact (sink_never_gets_a_capital_letter Samples.working_sink _ fresh_world H).
Defined.

End RunMore.

(** ** More on typing by mouse *)

Module ClickMore.
Import Py Grid Streams TypeKeyFacts ClickFacts BufferFacts.

Lemma test_event kb ev x y :
  TestOpenCV.layout (TestOpenCV.mouse_callback kb ev x y) = TestOpenCV.layout kb
  /\ TestOpenCV.typed_text (TestOpenCV.mouse_callback kb ev x y)
     = fold_left Buffer.apply_key_event
         (keys_pressed (TestOpenCV.layout kb) [ {| event := ev; ev_x := x; ev_y := y |} ])
         (TestOpenCV.typed_text kb).
Proof.
  unfold keys_pressed. simpl.
  destruct (ev =? Cv2.EVENT_LBUTTONDOWN) eqn:E.
  - apply Z.eqb_eq in E. subst ev.
    destruct (test_click kb x y) as [Hl Ht]. rewrite Hl, Ht.
    destruct (get_key_at_position (TestOpenCV.layout kb) x y); split; reflexivity.
  - unfold TestOpenCV.mouse_callback. rewrite E. split; reflexivity.
Qed.

Lemma enhanced_event kb ev x y :
  EnhancedDemo.layout (EnhancedDemo.mouse_callback kb ev x y)
  = EnhancedDemo.layout kb
  /\ EnhancedDemo.typed_text (EnhancedDemo.mouse_callback kb ev x y)
     = fold_left Buffer.apply_key_event
         (keys_pressed (EnhancedDemo.layout kb)
            [ {| event := ev; ev_x := x; ev_y := y |} ])
         (EnhancedDemo.typed_text kb).
Proof.
  unfold keys_pressed. simpl.
  destruct (ev =? Cv2.EVENT_LBUTTONDOWN) eqn:E.
  - apply Z.eqb_eq in E. subst ev.
    destruct (enhanced_click kb x y) as [Hl Ht]. rewrite Hl, Ht.
    destruct (get_key_at_position (EnhancedDemo.layout kb) x y); split; reflexivity.
  - unfold EnhancedDemo.mouse_callback. rewrite E. split; reflexivity.
Qed.

Lemma keys_pressed_app g evs1 evs2 :
  keys_pressed g (evs1 ++ evs2) = (keys_pressed g evs1 ++ keys_pressed g evs2)%list.
Proof. unfold keys_pressed. apply flat_map_app. Qed.

Lemma test_stream evs : forall kb,
  TestOpenCV.layout (test_handle_all kb evs) = TestOpenCV.layout kb
  /\ TestOpenCV.typed_text (test_handle_all kb evs)
     = fold_left Buffer.apply_key_event
         (keys_pressed (TestOpenCV.layout kb) evs) (TestOpenCV.typed_text kb).
Proof.
  unfold test_handle_all.
  induction evs as [|[ev x y] rest IH]; intros kb; [split; reflexivity|].
  cbn [fold_left event ev_x ev_y].
  destruct (IH (TestOpenCV.mouse_callback kb ev x y)) as [Hl Ht].
  destruct (test_event kb ev x y) as [El Et].
  rewrite Hl, Ht, El, Et, <- fold_left_app.
  change ({| event := ev; ev_x := x; ev_y := y |} :: rest)
    with ([ {| event := ev; ev_x := x; ev_y := y |} ] ++ rest)%list.
  rewrite keys_pressed_app. split; reflexivity.
Qed.

Lemma enhanced_stream evs : forall kb,
  EnhancedDemo.layout (enhanced_handle_all kb evs) = EnhancedDemo.layout kb
  /\ EnhancedDemo.typed_text (enhanced_handle_all kb evs)
     = fold_left Buffer.apply_key_event
         (keys_pressed (EnhancedDemo.layout kb) evs) (EnhancedDemo.typed_text kb).
Proof.
  unfold enhanced_handle_all.
  induction evs as [|[ev x y] rest IH]; intros kb; [split; reflexivity|].
  cbn [fold_left event ev_x ev_y].
  destruct (IH (EnhancedDemo.mouse_callback kb ev x y)) as [Hl Ht].
  destruct (enhanced_event kb ev x y) as [El Et].
  rewrite Hl, Ht, El, Et, <- fold_left_app.
  change ({| event := ev; ev_x := x; ev_y := y |} :: rest)
    with ([ {| event := ev; ev_x := x; ev_y := y |} ] ++ rest)%list.
  rewrite keys_pressed_app. split; reflexivity.
Qed.

Lemma keys_pressed_left_presses g evs :
  keys_pressed g (left_presses evs) = keys_pressed g evs.
Proof.
  unfold keys_pressed, left_presses.
  induction evs as [|e rest IH]; simpl; [reflexivity|].
  destruct (event e =? Cv2.EVENT_LBUTTONDOWN) eqn:E; simpl;
    rewrite ?E, IH; reflexivity.
Qed.

(** X12. Only left-button presses type: in both click demos the text
    after any stream of mouse events (moves, releases, other buttons,
    presses) is the text after the left-button presses of the stream
    alone. *)
Theorem only_left_presses_type (kb : TestOpenCV.t) (kbe : EnhancedDemo.t)
    (evs : list MouseEvent) :
  TestOpenCV.typed_text (test_handle_all kb evs)
  = TestOpenCV.typed_text (test_handle_all kb (left_presses evs))
  /\ EnhancedDemo.typed_text (enhanced_handle_all kbe evs)
     = EnhancedDemo.typed_text (enhanced_handle_all kbe (left_presses evs)).
Proof.
  rewrite (proj2 (test_stream evs kb)), (proj2 (test_stream (left_presses evs) kb)).
  rewrite (proj2 (enhanced_stream evs kbe)),
    (proj2 (enhanced_stream (left_presses evs) kbe)).
  now rewrite !keys_pressed_left_presses.
Qed.

(** X13. The two click demos type alike: started with the same layout
    and the same text, [test_opencv.py] and [enhanced_demo.py] hold the
    same text after any stream of mouse events. *)
Theorem click_demos_type_alike (kb : TestOpenCV.t) (kbe : EnhancedDemo.t)
    (evs : list MouseEvent) :
  EnhancedDemo.layout kbe = TestOpenCV.layout kb ->
  EnhancedDemo.typed_text kbe = TestOpenCV.typed_text kb ->
  EnhancedDemo.typed_text (enhanced_handle_all kbe evs)
  = TestOpenCV.typed_text (test_handle_all kb evs).
Proof.
  intros Hl Ht.
  rewrite (proj2 (test_stream evs kb)), (proj2 (enhanced_stream evs kbe)).
  now rewrite Hl, Ht.
Qed.

Lemma click_demos_type_alike_witness :
  EnhancedDemo.layout EnhancedDemo.fresh = TestOpenCV.layout TestOpenCV.fresh
  /\ EnhancedDemo.typed_text EnhancedDemo.fresh = TestOpenCV.typed_text TestOpenCV.fresh
  /\ EnhancedDemo.typed_text
       (enhanced_handle_all EnhancedDemo.fresh
          [press_at 150 450; {| event := 0; ev_x := 220; ev_y := 450 |};
           press_at 220 450])
     = TestOpenCV.typed_text
         (test_handle_all TestOpenCV.fresh
            [press_at 150 450; {| event := 0; ev_x := 220; ev_y := 450 |};
             press_at 220 450]).
Proof.
  split; [reflexivity|]. split; [reflexivity|].
  exact (click_demos_type_alike TestOpenCV.fresh EnhancedDemo.fresh _
           eq_refl eq_refl).
Defined.

Lemma apply_back buffer : Buffer.apply_key_event buffer "BACK" = drop_last buffer.
Proof. unfold Buffer.apply_key_event. simpl. destruct buffer; reflexivity. Qed.

(** [BACK] takes back a space and a one-character label. *)
Lemma back_after_key buffer k :
  k = "SPACE" \/ (exists c, k = String c EmptyString) ->
  Buffer.apply_key_event (Buffer.apply_key_event buffer k) "BACK" = buffer.
Proof.
  intros [-> | [c ->]].
  - rewrite apply_space. apply apply_back_snoc.
  - assert (E : Buffer.apply_key_event buffer (String c EmptyString)
                = buffer ++ String c EmptyString).
    { unfold Buffer.apply_key_event. simpl.
      destruct (Ascii.eqb c "S"); destruct (Ascii.eqb c "B"); reflexivity. }
    rewrite E. apply apply_back_snoc.
Qed.

(** X14. In [test_opencv.py] a click on [BACK] takes back the click
    before it on [SPACE] or on a key with a one-character label: the
    text is what it was before the two clicks. *)
Theorem click_on_back_undoes_a_click kb x y k xb yb :
  get_key_at_position (TestOpenCV.layout kb) x y = Some k ->
  k = "SPACE" \/ (exists c, k = String c EmptyString) ->
  get_key_at_position (TestOpenCV.layout kb) xb yb = Some "BACK" ->
  TestOpenCV.typed_text (test_handle_all kb [press_at x y; press_at xb yb])
  = TestOpenCV.typed_text kb.
Proof.
  intros Hk Hone Hb. rewrite (proj2 (test_stream _ kb)).
  unfold keys_pressed, press_at. simpl. rewrite Hk, Hb. simpl.
  now apply back_after_key.
Qed.

Lemma click_on_back_undoes_a_click_witness :
  get_key_at_position (TestOpenCV.layout (Samples.click_keyboard "HI")) 150 450
  = Some "Q"
  /\ ("Q" = "SPACE" \/ (exists c, "Q" = String c EmptyString))
  /\ get_key_at_position (TestOpenCV.layout (Samples.click_keyboard "HI")) 220 660
     = Some "BACK"
  /\ TestOpenCV.typed_text
       (test_handle_all (Samples.click_keyboard "HI")
          [press_at 150 450; press_at 220 660])
     = "HI".
Proof.
  assert (Hk : get_key_at_position
                 (TestOpenCV.layout (Samples.click_keyboard "HI")) 150 450
               = Some "Q") by reflexivity.
  assert (Hone : "Q" = "SPACE" \/ (exists c, "Q" = String c EmptyString))
    by (right; exists "Q"%char; reflexivity).
  assert (Hb : get_key_at_position
                 (TestOpenCV.layout (Samples.click_keyboard "HI")) 220 660
               = Some "BACK") by reflexivity.
  split; [exact Hk|]. split; [exact Hone|]. split; [exact Hb|].
  exact (click_on_back_undoes_a_click (Samples.click_keyboard "HI")
           150 450 "Q" 220 660 Hk Hone Hb).
Defined.

(** X15. With gestures the undo depends on the clock: after a key
    event for [SPACE] or a one-character label has fired at [t1], a
    [BACK] gesture at [t2] restores the text when it comes more than
    [key_press_delay] after [t1], and is dropped, leaving the typed key
    in the text, when it comes sooner. *)
Theorem back_gesture_undoes_unless_debounced sink t1 t2 k w :
  (VirtualKeyboard.key_press_delay (VirtualKeyboard.self w)
   < t1 - VirtualKeyboard.last_key_time (VirtualKeyboard.self w))%Q ->
  k = "SPACE" \/ (exists c, k = String c EmptyString) ->
  ((VirtualKeyboard.key_press_delay (VirtualKeyboard.self w) < t2 - t1)%Q ->
   VirtualKeyboard.typed_text
     (VirtualKeyboard.self
        (snd (VirtualKeyboard.type_key sink t2 "BACK"
                (snd (VirtualKeyboard.type_key sink t1 k w)))))
   = VirtualKeyboard.typed_text (VirtualKeyboard.self w))
  /\ ((t2 - t1 <= VirtualKeyboard.key_press_delay (VirtualKeyboard.self w))%Q ->
      VirtualKeyboard.typed_text
        (VirtualKeyboard.self
           (snd (VirtualKeyboard.type_key sink t2 "BACK"
                   (snd (VirtualKeyboard.type_key sink t1 k w)))))
      = Buffer.apply_key_event
          (VirtualKeyboard.typed_text (VirtualKeyboard.self w)) k).
Proof.
  intros H1 Hone. rewrite (type_key_fires sink t1 k w H1). split; intros H2.
  - rewrite type_key_fires by exact H2. simpl. now apply back_after_key.
  - rewrite type_key_blocked by exact H2. reflexivity.
Qed.

Lemma back_gesture_undoes_unless_debounced_witness :
  (VirtualKeyboard.key_press_delay (VirtualKeyboard.self (Samples.gesture_world "HI"))
   < 1 - VirtualKeyboard.last_key_time
           (VirtualKeyboard.self (Samples.gesture_world "HI")))%Q
  /\ ("Q" = "SPACE" \/ (exists c, "Q" = String c EmptyString))
  /\ VirtualKeyboard.typed_text
       (VirtualKeyboard.self
          (snd (VirtualKeyboard.type_key Samples.working_sink 2 "BACK"
                  (snd (VirtualKeyboard.type_key Samples.working_sink 1 "Q"
                          (Samples.gesture_world "HI"))))))
     = "HI"
  /\ VirtualKeyboard.typed_text
       (VirtualKeyboard.self
          (snd (VirtualKeyboard.type_key Samples.working_sink (5 # 4) "BACK"
                  (snd (VirtualKeyboard.type_key Samples.working_sink 1 "Q"
                          (Samples.gesture_world "HI"))))))
     = "HIQ".
Proof.
  assert (H1 : (VirtualKeyboard.key_press_delay
                  (VirtualKeyboard.self (Samples.gesture_world "HI"))
                < 1 - VirtualKeyboard.last_key_time
                        (VirtualKeyboard.self (Samples.gesture_world "HI")))%Q)
    by reflexivity.
  assert (Hone : "Q" = "SPACE" \/ (exists c, "Q" = String c EmptyString))
    by (right; exists "Q"%char; reflexivity).
  split; [exact H1|]. split; [exact Hone|]. split.
  - apply (proj1 (back_gesture_undoes_unless_debounced Samples.working_sink 1 2 "Q"
                    (Samples.gesture_world "HI") H1 Hone)).
    reflexivity.
  - rewrite (proj2 (back_gesture_undoes_unless_debounced Samples.working_sink 1
                      (5 # 4) "Q" (Samples.gesture_world "HI") H1 Hone)).
    + reflexivity.
    + vm_compute. discriminate.
Defined.

Lemma drop_last_prefix s :
  drop_last s = substring 0 (String.length s - 1) s.
Proof.
  induction s as [|c s IH]; [reflexivity|].
  destruct s as [|d s]; [reflexivity|].
  change (drop_last (String c (String d s))) with (String c (drop_last (String d s))).
  rewrite IH. simpl. now rewrite Nat.sub_0_r.
Qed.

Lemma prefix_length s : forall m,
  (m <= String.length s)%nat -> String.length (substring 0 m s) = m.
Proof.
  induction s as [|c s IH]; intros [|m] H; simpl in *; try reflexivity; try lia.
  rewrite IH; [reflexivity | lia].
Qed.

Lemma prefix_of_prefix s : forall a b,
  (a <= b)%nat -> substring 0 a (substring 0 b s) = substring 0 a s.
Proof.
  induction s as [|c s IH]; intros [|a] [|b] H; simpl; try reflexivity; try lia.
  rewrite IH; [reflexivity | lia].
Qed.

Lemma backs_leave_prefix n : forall s,
  fold_left Buffer.apply_key_event (repeat "BACK" n) s
  = substring 0 (String.length s - n) s.
Proof.
  induction n as [|n IH]; intros s.
  - simpl. rewrite Nat.sub_0_r.
    clear. induction s as [|c s IH]; simpl; [reflexivity | now rewrite <- IH].
  - cbn [repeat fold_left]. rewrite IH, apply_back, drop_last_prefix.
    rewrite prefix_length by lia.
    rewrite prefix_of_prefix by lia.
    f_equal. lia.
Qed.

Lemma keys_pressed_repeat g x y n :
  get_key_at_position g x y = Some "BACK" ->
  keys_pressed g (repeat (press_at x y) n) = repeat "BACK" n.
Proof.
  intros H. unfold keys_pressed.
  induction n as [|n IH]; simpl; [reflexivity|].
  now rewrite H, IH.
Qed.

(** X16. [n] clicks on [BACK] leave the first [length - n] characters
    of the text, and the empty text once [n] reaches its length: the
    text is never touched in front and further clicks are harmless. *)
Theorem repeated_back_leaves_a_prefix kb xb yb n :
  get_key_at_position (TestOpenCV.layout kb) xb yb = Some "BACK" ->
  TestOpenCV.typed_text (test_handle_all kb (repeat (press_at xb yb) n))
  = substring 0 (String.length (TestOpenCV.typed_text kb) - n)
      (TestOpenCV.typed_text kb).
Proof.
  intros Hb. rewrite (proj2 (test_stream _ kb)).
  rewrite (keys_pressed_repeat _ xb yb n Hb). apply backs_leave_prefix.
Qed.

Lemma repeated_back_leaves_a_prefix_witness :
  get_key_at_position (TestOpenCV.layout (Samples.click_keyboard "HELLO")) 220 660
  = Some "BACK"
  /\ TestOpenCV.typed_text
       (test_handle_all (Samples.click_keyboard "HELLO") (repeat (press_at 220 660) 2))
     = "HEL"
  /\ TestOpenCV.typed_text
       (test_handle_all (Samples.click_keyboard "HELLO") (repeat (press_at 220 660) 7))
     = EmptyString.
Proof.
  assert (Hb : get_key_at_position
                 (TestOpenCV.layout (Samples.click_keyboard "HELLO")) 220 660
               = Some "BACK") by reflexivity.
  split; [exact Hb|]. split.
  - rewrite (repeated_back_leaves_a_prefix (Samples.click_keyboard "HELLO")
               220 660 2 Hb). reflexivity.
  - rewrite (repeated_back_leaves_a_prefix (Samples.click_keyboard "HELLO")
               220 660 7 Hb). reflexivity.
Defined.

Lemma enhanced_event_hover kb ev x y :
  EnhancedDemo.mouse_pos (EnhancedDemo.mouse_callback kb ev x y) = (x, y)
  /\ EnhancedDemo.current_key (EnhancedDemo.mouse_callback kb ev x y)
     = get_key_at_position (EnhancedDemo.layout kb) x y.
Proof.
  unfold EnhancedDemo.mouse_callback. simpl.
  destruct (ev =? Cv2.EVENT_LBUTTONDOWN); [|split; reflexivity].
  destruct (get_key_at_position (EnhancedDemo.layout kb) x y) as [k|];
    [|split; reflexivity].
  destruct (str_truthy k); [|split; reflexivity].
  destruct (k =? "SPACE")%string; [split; reflexivity|].
  destruct (k =? "BACK")%string; [|split; reflexivity].
  destruct (str_truthy (EnhancedDemo.typed_text kb)); split; reflexivity.
Qed.

(** X17. In [enhanced_demo.py] the simulated finger follows the mouse:
    after any stream of events that ends with an event at [(x, y)],
    [mouse_pos] is [(x, y)] and [current_key] is the key at [(x, y)],
    whatever kind of event it was and whatever was typed. *)
Theorem hover_follows_the_mouse (kbe : EnhancedDemo.t) (evs : list MouseEvent)
    (ev x y : Z) :
  EnhancedDemo.mouse_pos
    (enhanced_handle_all kbe (evs ++ [ {| event := ev; ev_x := x; ev_y := y |} ]))
  = (x, y)
  /\ EnhancedDemo.current_key
       (enhanced_handle_all kbe (evs ++ [ {| event := ev; ev_x := x; ev_y := y |} ]))
     = get_key_at_position (EnhancedDemo.layout kbe) x y.
Proof.
  unfold enhanced_handle_all. rewrite fold_left_app. cbn [fold_left event ev_x ev_y].
  fold (enhanced_handle_all kbe evs).
  destruct (enhanced_event_hover (enhanced_handle_all kbe evs) ev x y) as [Hm Hc].
  rewrite Hm, Hc, (proj1 (enhanced_stream evs kbe)). split; reflexivity.
Qed.

End ClickMore.

(** ** The basic gesture demo and the simulated hand *)

Module DemoMore.
Import Py Grid Tracker Streams TypeKeyFacts.

Lemma setup_from_scan ks px py : forall i0 k,
  SimpleDemo.scan (SimpleDemo.setup_from i0 ks) (px, py) = Some k <->
  exists j,
    nth_error ks j = Some k
    /\ 100 + Z.of_nat (i0 + j) * 120 <= px <= 200 + Z.of_nat (i0 + j) * 120
    /\ 400 <= py <= 500.
Proof.
  induction ks as [|k0 rest IH]; intros i0 k;
    cbn [SimpleDemo.setup_from SimpleDemo.scan SimpleDemo.x SimpleDemo.y
         SimpleDemo.width SimpleDemo.height SimpleDemo.key fst snd].
  - split; [discriminate | intros (j & Hj & _); destruct j; discriminate].
  - destruct ((100 + Z.of_nat i0 * 120 <=? px)
              && (px <=? 100 + Z.of_nat i0 * 120 + 100)
              && (400 <=? py) && (py <=? 400 + 100)) eqn:Hhit.
    + rewrite !andb_true_iff, !Z.leb_le in Hhit. split.
      * intros [= <-]. exists 0%nat. rewrite Nat.add_0_r.
        split; [reflexivity | lia].
      * intros (j & Hj & Hx & Hy). destruct j as [|j]; [simpl in Hj; congruence|].
        exfalso. lia.
    + rewrite IH. split.
      * intros (j & Hj & Hx & Hy). exists (S j).
        rewrite Nat.add_succ_r. split; [exact Hj | split; assumption].
      * intros (j & Hj & Hx & Hy). destruct j as [|j].
        -- exfalso. rewrite Nat.add_0_r in Hx.
           assert (Hhit' : (100 + Z.of_nat i0 * 120 <=? px)
                           && (px <=? 100 + Z.of_nat i0 * 120 + 100)
                           && (400 <=? py) && (py <=? 400 + 100) = true)
             by (rewrite !andb_true_iff, !Z.leb_le; lia).
           congruence.
        -- exists j. rewrite Nat.add_succ_r in Hx.
           split; [exact Hj | split; assumption].
Qed.

(** X18. In [simple_demo.py], once [setup_keyboard] has laid out the
    keys, a point resolves to [k] exactly when it lies in the 100 by 100
    square of a key labelled [k], the square of the key number [i] being
    [[100 + 120 i, 200 + 120 i]] by [[400, 500]]; everywhere else,
    also in the 20 pixel gaps, it resolves to no key. *)
Theorem simple_demo_key_squares (self : SimpleDemo.t) (px py : Z) (k : string) :
  SimpleDemo.key_positions self = SimpleDemo.setup_keyboard (SimpleDemo.keys self) ->
  (SimpleDemo.get_key_at_position self (px, py) = Some k <->
   exists i,
     nth_error (SimpleDemo.keys self) i = Some k
     /\ 100 + Z.of_nat i * 120 <= px <= 200 + Z.of_nat i * 120
     /\ 400 <= py <= 500).
Proof.
  intros H. unfold SimpleDemo.get_key_at_position, SimpleDemo.setup_keyboard in *.
  rewrite H. apply setup_from_scan.
Qed.

Lemma simple_demo_key_squares_witness :
  SimpleDemo.key_positions SimpleDemo.fresh
  = SimpleDemo.setup_keyboard (SimpleDemo.keys SimpleDemo.fresh)
  /\ (SimpleDemo.get_key_at_position SimpleDemo.fresh (400, 450) = Some "C" <->
      exists i,
        nth_error (SimpleDemo.keys SimpleDemo.fresh) i = Some "C"
        /\ 100 + Z.of_nat i * 120 <= 400 <= 200 + Z.of_nat i * 120
        /\ 400 <= 450 <= 500).
Proof.
  split; [reflexivity|].
  exact (simple_demo_key_squares SimpleDemo.fresh 400 450 "C" eq_refl).
Defined.

Lemma append_assoc (a b c : string) : (a ++ b) ++ c = a ++ (b ++ c).
Proof. induction a as [|x a IH]; simpl; [reflexivity | now rewrite IH]. Qed.

Lemma fold_append l : forall s,
  fold_left append l s = s ++ fold_left append l EmptyString.
Proof.
  induction l as [|k l IH]; intros s; simpl.
  - now rewrite append_empty.
  - rewrite (IH (s ++ k)), (IH k). apply append_assoc.
Qed.

Lemma simple_hand self h :
  SimpleDemo.keys (SimpleDemo.process_hand self h) = SimpleDemo.keys self
  /\ SimpleDemo.key_positions (SimpleDemo.process_hand self h)
     = SimpleDemo.key_positions self
  /\ SimpleDemo.touch_threshold (SimpleDemo.process_hand self h)
     = SimpleDemo.touch_threshold self
  /\ SimpleDemo.typed_text (SimpleDemo.process_hand self h)
     = fold_left append (simple_pinched_keys self [h]) (SimpleDemo.typed_text self).
Proof.
  unfold SimpleDemo.process_hand, simple_pinched_keys. simpl.
  destruct (SimpleDemo.is_touching self h); [|repeat split].
  destruct (SimpleDemo.get_key_at_position self (index_pos h)) as [k|];
    [|repeat split].
  simpl. destruct (str_truthy k) eqn:E; [repeat split|].
  apply truthy_nonempty in E. subst k. simpl. rewrite append_empty. repeat split.
Qed.

Lemma simple_pinched_keys_same self self' hands :
  SimpleDemo.key_positions self' = SimpleDemo.key_positions self ->
  SimpleDemo.touch_threshold self' = SimpleDemo.touch_threshold self ->
  simple_pinched_keys self' hands = simple_pinched_keys self hands.
Proof.
  intros Hk Ht. unfold simple_pinched_keys, SimpleDemo.is_touching,
    SimpleDemo.get_key_at_position. now rewrite Hk, Ht.
Qed.

Lemma simple_hands hands : forall self,
  SimpleDemo.key_positions (fold_left SimpleDemo.process_hand hands self)
  = SimpleDemo.key_positions self
  /\ SimpleDemo.touch_threshold (fold_left SimpleDemo.process_hand hands self)
     = SimpleDemo.touch_threshold self
  /\ SimpleDemo.typed_text (fold_left SimpleDemo.process_hand hands self)
     = fold_left append (simple_pinched_keys self hands) (SimpleDemo.typed_text self).
Proof.
  induction hands as [|h rest IH]; intros self; [repeat split|].
  cbn [fold_left].
  destruct (IH (SimpleDemo.process_hand self h)) as (I1 & I2 & I3).
  destruct (simple_hand self h) as (_ & E1 & E2 & E3).
  rewrite I1, I2, I3, (simple_pinched_keys_same self _ rest E1 E2), E1, E2, E3.
  split; [reflexivity|]. split; [reflexivity|].
  rewrite <- fold_left_app. f_equal.
  unfold simple_pinched_keys. cbn [flat_map]. now rewrite app_nil_r.
Qed.

(** X19. [simple_demo.py] only ever appends: after a run the text is
    the old text followed by the labels of the keys under the index
    finger of every sample with a closed pinch, in order, one copy per
    sample; nothing is removed and nothing is rate limited. *)
Theorem simple_demo_appends_every_pinch (self : SimpleDemo.t) (frames : list Frame) :
  SimpleDemo.typed_text (SimpleDemo.run self frames)
  = SimpleDemo.typed_text self
    ++ fold_left append (simple_pinched_keys self (List.concat frames)) EmptyString.
Proof.
  rewrite <- fold_append. unfold SimpleDemo.run, SimpleDemo.process_frame.
  revert self.
  induction frames as [|f rest IH]; intros self; [reflexivity|].
  cbn [fold_left List.concat].
  destruct (simple_hands f self) as (E1 & E2 & E3).
  rewrite IH, E3. unfold simple_pinched_keys at 3.
  rewrite flat_map_app, fold_left_app.
  now rewrite (simple_pinched_keys_same self _ (List.concat rest) E1 E2).
Qed.

(** X20. The circles of the simulated hand are drawn inside the frame:
    for a frame of at least one pixel each way and any mouse position,
    also one outside the frame, each of the ten fingertip and palm points
    is clamped to a pixel of the frame; and when the mouse is inside the
    frame the index fingertip is drawn exactly at the mouse. *)
Theorem simulated_hand_is_drawn_inside_the_frame
    (frame_width frame_height mouse_x mouse_y : Z) :
  0 < frame_width ->
  0 < frame_height ->
  Forall
    (fun p =>
       0 <= fst (SimulatedHand.clamp_to_frame frame_width frame_height p) < frame_width
       /\ 0 <= snd (SimulatedHand.clamp_to_frame frame_width frame_height p)
          < frame_height)
    (fst (SimulatedHand.simulate_hand_landmarks mouse_x mouse_y)
     ++ snd (SimulatedHand.simulate_hand_landmarks mouse_x mouse_y))%list
  /\ (0 <= mouse_x < frame_width ->
      0 <= mouse_y < frame_height ->
      option_map (SimulatedHand.clamp_to_frame frame_width frame_height)
        (nth_error (fst (SimulatedHand.simulate_hand_landmarks mouse_x mouse_y)) 1)
      = Some (mouse_x, mouse_y)).
Proof.
  intros Hw Hh. split.
  - unfold SimulatedHand.simulate_hand_landmarks, SimulatedHand.clamp_to_frame.
    cbn [fst snd app].
    repeat (constructor; [cbn [fst snd]; lia|]). constructor.
  - intros Hx Hy. cbn [SimulatedHand.simulate_hand_landmarks fst nth_error option_map
                       SimulatedHand.clamp_to_frame].
    f_equal. f_equal; lia.
Qed.

Lemma simulated_hand_is_drawn_inside_the_frame_witness :
  0 < 1280
  /\ 0 < 720
  /\ map (SimulatedHand.clamp_to_frame 1280 720)
       (fst (SimulatedHand.simulate_hand_landmarks 10 720))
     = [(0, 719); (10, 719); (30, 700); (50, 710); (70, 719)]
  /\ Forall
       (fun p =>
          0 <= fst (SimulatedHand.clamp_to_frame 1280 720 p) < 1280
          /\ 0 <= snd (SimulatedHand.clamp_to_frame 1280 720 p) < 720)
       (fst (SimulatedHand.simulate_hand_landmarks 10 720)
        ++ snd (SimulatedHand.simulate_hand_landmarks 10 720))%list.
Proof.
  assert (Hw : 0 < 1280) by lia.
  assert (Hh : 0 < 720) by lia.
  split; [exact Hw|]. split; [exact Hh|]. split; [reflexivity|].
  exact (proj1 (simulated_hand_is_drawn_inside_the_frame 1280 720 10 720 Hw Hh)).
Defined.

(** X21. The margins are dead zones: on a grid with a positive margin
    and key sizes that are not negative, a point whose [x] lies strictly
    between the right edge of one column and the left edge of the next,
    or whose [y] lies strictly between the bottom of one row and the top
    of the next, is on no key. *)
Theorem margin_gap_is_no_key g x y c r :
  0 <= key_width g -> 0 <= key_height g -> 0 < key_margin g ->
  key_x g c + key_width g < x < key_x g (S c)
  \/ key_y g r + key_height g < y < key_y g (S r) ->
  get_key_at_position g x y = None.
Proof.
  intros Hw Hh Hm Hgap. unfold get_key_at_position.
  apply GridFacts.scan_rows_none.
  intros i j row _ _ [[Hx1 Hx2] [Hy1 Hy2]]. simpl in *.
  unfold key_x, key_y in *. destruct Hgap as [[G1 G2] | [G1 G2]].
  - destruct (Nat.le_gt_cases j c); nia.
  - destruct (Nat.le_gt_cases i r); nia.
Qed.

Lemma margin_gap_is_no_key_witness :
  0 <= key_width default_layout
  /\ 0 <= key_height default_layout
  /\ 0 < key_margin default_layout
  /\ (key_x default_layout 0 + key_width default_layout < 210
      < key_x default_layout 1
      \/ key_y default_layout 0 + key_height default_layout < 450
         < key_y default_layout 1)
  /\ get_key_at_position default_layout 210 450 = None.
Proof.
  assert (Hw : 0 <= key_width default_layout) by (simpl; lia).
  assert (Hh : 0 <= key_height default_layout) by (simpl; lia).
  assert (Hm : 0 < key_margin default_layout) by (simpl; lia).
  assert (Hg : key_x default_layout 0 + key_width default_layout < 210
               < key_x default_layout 1
               \/ key_y default_layout 0 + key_height default_layout < 450
                  < key_y default_layout 1)
    by (left; vm_compute; split; reflexivity).
  split; [exact Hw|]. split; [exact Hh|]. split; [exact Hm|]. split; [exact Hg|].
  exact (margin_gap_is_no_key default_layout 210 450 0 0 Hw Hh Hm Hg).
Defined.

End DemoMore.
